(** * The PyOllama editor bridge: command construction, process execution,
      one-shot operations and the chat session protocol.

    A shallow embedding of [vscode-ollama-extension/src/extension.ts].
    Asynchronous functions are programs over the primitives of the editor
    host and of [child_process]; a program is run against a host, which
    yields the sequence of primitives it invoked and its result. *)

From Stdlib Require Import List NArith ZArith Bool Lia.
From Stdlib Require Import Strings.String Strings.Ascii.
Import ListNotations.

Set Implicit Arguments.
Open Scope N_scope.

(** ** JavaScript strings

    A JavaScript string is a sequence of UTF-16 code units, here numbers.
    Literals of the source are written [js "..."]. *)

Definition jsstring : Type := list N.

Definition js (s : string) : jsstring :=
  map N_of_ascii (list_ascii_of_string s).
Arguments js s%_string.

(** The double quote, line feed and space code units. *)
Definition dquote : N := 34.
Definition LF : N := 10.
Definition SP : N := 32.

(** [!s] is true of the empty string only; [undefined] is [None]. *)
Definition truthy (s : jsstring) : bool :=
  match s with [] => false | _ :: _ => true end.

(** [Array.prototype.join] on an array of strings. *)
Fixpoint join (sep : jsstring) (xs : list jsstring) : jsstring :=
  match xs with
  | [] => []
  | x :: rest =>
      match rest with
      | [] => x
      | _ :: _ => x ++ sep ++ join sep rest
      end
  end.

(** ECMAScript WhiteSpace and LineTerminator code points, the ones
    [String.prototype.trim] strips. *)
Definition isWhiteSpace (c : N) : bool :=
  (c =? 0x09) || (c =? 0x0A) || (c =? 0x0B) || (c =? 0x0C) || (c =? 0x0D)
  || (c =? 0x20) || (c =? 0xA0) || (c =? 0x1680)
  || ((0x2000 <=? c) && (c <=? 0x200A))
  || (c =? 0x2028) || (c =? 0x2029) || (c =? 0x202F) || (c =? 0x205F)
  || (c =? 0x3000) || (c =? 0xFEFF).

Fixpoint trimStart (s : jsstring) : jsstring :=
  match s with
  | [] => []
  | c :: s' => if isWhiteSpace c then trimStart s' else s
  end.

Definition trimEnd (s : jsstring) : jsstring := rev (trimStart (rev s)).

Definition trim (s : jsstring) : jsstring := trimEnd (trimStart s).

(** [a === b] on strings. *)
Fixpoint jsstring_eqb (a b : jsstring) : bool :=
  match a, b with
  | [], [] => true
  | x :: a', y :: b' => (x =? y) && jsstring_eqb a' b'
  | _, _ => false
  end.

(** [Buffer.byteLength(s, 'utf8')]: one to three bytes for a code unit,
    four for a surrogate pair; a surrogate on its own is written as the
    three bytes of the replacement character. *)
Definition isHighSurrogate (c : N) : bool := (0xD800 <=? c) && (c <=? 0xDBFF).
Definition isLowSurrogate (c : N) : bool := (0xDC00 <=? c) && (c <=? 0xDFFF).

Fixpoint byteLength (s : jsstring) : N :=
  match s with
  | [] => 0
  | c :: s' =>
      if c <? 0x80 then 1 + byteLength s'
      else if c <? 0x800 then 2 + byteLength s'
      else if isHighSurrogate c then
        match s' with
        | d :: s'' =>
            if isLowSurrogate d then 4 + byteLength s'' else 3 + byteLength s'
        | [] => 3
        end
      else 3 + byteLength s'
  end.

(** No surrogate without its partner: the strings that UTF-8 encodes
    without loss. *)
Fixpoint wellFormed (s : jsstring) : bool :=
  match s with
  | [] => true
  | c :: s' =>
      if isHighSurrogate c then
        match s' with
        | d :: s'' => isLowSurrogate d && wellFormed s''
        | [] => false
        end
      else negb (isLowSurrogate c) && wellFormed s'
  end.

(** ** Host primitives *)

(** What became of a spawned child process: it wrote [stdout] and
    [stderr] and ended with [status], or it could not be started. *)
Inductive ProcessRun : Type :=
| Exited (status : Z) (stdout stderr : jsstring)
| SpawnFailed (reason : jsstring).

Record JsError : Type := Error { message : jsstring }.

Record Position : Type := { line : N; character : N }.

(** The active editor, as far as [generateText] looks at it: the end of
    the selection and [document.getText(selection)]. *)
Record Editor : Type := { selection_end : Position; selectedText : jsstring }.

(** Messages exchanged with the webview: [{ type, text }]. *)
Record Message : Type := { type : jsstring; text : jsstring }.

Inductive HostE : Type -> Type :=
| ConfigGet (section key : jsstring) : HostE (option jsstring)
| Spawn (command : jsstring) : HostE ProcessRun
| ConsoleWarn (label data : jsstring) : HostE unit
| ShowInputBox (prompt placeHolder : jsstring) : HostE (option jsstring)
| ShowInformationMessage (msg : jsstring) : HostE unit
| ShowErrorMessage (msg : jsstring) : HostE unit
| ActiveTextEditor : HostE (option Editor)
| CreateWebviewPanel (viewType title : jsstring) : HostE unit
| SetWebviewHtml (modelName : jsstring) : HostE unit
| OnDidReceiveMessage (boundModel : jsstring) : HostE unit
| PostMessage (m : Message) : HostE unit
| EditInsert (at_ : Position) (data : jsstring) : HostE unit.

(** ** Programs over the host primitives *)

Inductive Prog (A : Type) : Type :=
| Ret (a : A)
| Vis (X : Type) (e : HostE X) (k : X -> Prog A).
Arguments Ret {A} a.
Arguments Vis {A X} e k.

Fixpoint bind {A B : Type} (p : Prog A) (f : A -> Prog B) : Prog B :=
  match p with
  | Ret a => f a
  | Vis e k => Vis e (fun x => bind (k x) f)
  end.

Definition trigger {X : Type} (e : HostE X) : Prog X := Vis e (fun x => Ret x).

Declare Scope prog_scope.
Delimit Scope prog_scope with prog.
Notation "x <- p ;; q" := (bind p (fun x => q))
  (at level 61, p at next level, right associativity) : prog_scope.
Notation "p ;; q" := (bind p (fun _ => q))
  (at level 61, right associativity) : prog_scope.
Open Scope prog_scope.

(** An invoked primitive, its answer type forgotten. *)
Definition Event : Type := sigT HostE.
Definition ev {X : Type} (e : HostE X) : Event := existT HostE X e.

(** A host: the settings store, what the user does with the input box,
    the active editor, and what a command line does when spawned. *)
Record Host : Type := {
  settings : jsstring -> jsstring -> option jsstring;
  inputBox : option jsstring;
  activeTextEditor : option Editor;
  child : jsstring -> ProcessRun
}.

Definition answer (h : Host) {X : Type} (e : HostE X) : X :=
  match e in HostE T return T with
  | ConfigGet s k => settings h s k
  | Spawn c => child h c
  | ConsoleWarn _ _ => tt
  | ShowInputBox _ _ => inputBox h
  | ShowInformationMessage _ => tt
  | ShowErrorMessage _ => tt
  | ActiveTextEditor => activeTextEditor h
  | CreateWebviewPanel _ _ => tt
  | SetWebviewHtml _ => tt
  | OnDidReceiveMessage _ => tt
  | PostMessage _ => tt
  | EditInsert _ _ => tt
  end.

(** Running a program to completion: the primitives it invoked, in order,
    and its result. *)
Fixpoint run {A : Type} (h : Host) (p : Prog A) : list Event * A :=
  match p with
  | Ret a => ([], a)
  | Vis e k =>
      let r := run h (k (answer h e)) in
      (ev e :: fst r, snd r)
  end.

Definition trace {A : Type} (h : Host) (p : Prog A) : list Event := fst (run h p).
Definition result {A : Type} (h : Host) (p : Prog A) : A := snd (run h p).

(** What a run did, read off its trace: the command lines handed to
    [exec], the messages posted to the webview, the insertions into the
    document, and whether an event is the input box or a new panel. *)
Definition spawned (t : list Event) : list jsstring :=
  flat_map (fun e : Event =>
              match projT2 e with Spawn c => [c] | _ => [] end) t.

Definition posted (t : list Event) : list Message :=
  flat_map (fun e : Event =>
              match projT2 e with PostMessage m => [m] | _ => [] end) t.

Definition inserted (t : list Event) : list (Position * jsstring) :=
  flat_map (fun e : Event =>
              match projT2 e with EditInsert p d => [(p, d)] | _ => [] end) t.

Definition is_prompt (e : Event) : bool :=
  match projT2 e with ShowInputBox _ _ => true | _ => false end.

Definition is_panel (e : Event) : bool :=
  match projT2 e with CreateWebviewPanel _ _ => true | _ => false end.

(** ** extension.ts *)

(** [config.get(key, default)] on [getConfiguration(section)]. *)
Definition config_get (section key default : jsstring) : Prog jsstring :=
  v <- trigger (ConfigGet section key) ;;
  Ret (match v with Some s => s | None => default end).

Definition getPythonPath : Prog jsstring :=
  config_get (js "pyollama") (js "pythonPath") (js "python").

Definition getModelDir : Prog jsstring :=
  config_get (js "pyollama") (js "modelDir") (js "~/.ollama/models").

(** The [maxBuffer] of [exec] when no option is given, as here: the
    largest number of bytes allowed on standard output or on standard
    error. *)
Definition maxBuffer : N := 1048576.

Definition within_buffer (out err : jsstring) : bool :=
  (byteLength out <=? maxBuffer) && (byteLength err <=? maxBuffer).

(** [promisify(exec)]: the promise rejects when a stream has more than
    [maxBuffer] bytes, whatever the exit status; otherwise it resolves
    with both streams when the child exits with status zero and rejects
    when it does not; node words the rejection of a failed command from
    the command line and its standard error. *)
Definition settle (command : jsstring) (r : ProcessRun)
  : (jsstring * jsstring) + JsError :=
  match r with
  | Exited st out err =>
      if maxBuffer <? byteLength out then
        inr (Error (js "stdout maxBuffer length exceeded"))
      else if maxBuffer <? byteLength err then
        inr (Error (js "stderr maxBuffer length exceeded"))
      else
        match st with
        | 0%Z => inl (out, err)
        | _ => inr (Error (js "Command failed: " ++ command ++ [LF] ++ err))
        end
  | SpawnFailed reason => inr (Error reason)
  end.

Definition execAsync (command : jsstring) : Prog ((jsstring * jsstring) + JsError) :=
  r <- trigger (Spawn command) ;;
  Ret (settle command r).

(** The template literal of [runPyOllamaCommand]. *)
Definition command_line (pythonPath modelDir : jsstring) (args : list jsstring)
  : jsstring :=
  pythonPath ++ js " -m pyollama --model-dir " ++ modelDir ++ js " "
    ++ join (js " ") args.

Definition runPyOllamaCommand (args : list jsstring) : Prog (jsstring + JsError) :=
  pythonPath <- getPythonPath ;;
  modelDir <- getModelDir ;;
  let command := command_line pythonPath modelDir args in
  r <- execAsync command ;;
  match r with
  | inl (stdout, stderr) =>
      (if truthy stderr
       then trigger (ConsoleWarn (js "PyOllama stderr:") stderr)
       else Ret tt) ;;
      Ret (inl stdout)
  | inr error =>
      Ret (inr (Error (js "PyOllama command failed: " ++ message error)))
  end.

Definition listModels : Prog unit :=
  r <- runPyOllamaCommand [js "list"] ;;
  match r with
  | inl output =>
      trigger (ShowInformationMessage (js "Models:" ++ [LF] ++ output))
  | inr error =>
      trigger (ShowErrorMessage (js "Failed to list models: " ++ message error))
  end.

(** The callback [startChat] registers with [onDidReceiveMessage]; it
    closes over [modelName]. *)
Definition onMessage (modelName : jsstring) (m : Message) : Prog unit :=
  if jsstring_eqb (type m) (js "sendMessage") then
    r <- runPyOllamaCommand [js "generate"; modelName; text m] ;;
    match r with
    | inl output =>
        trigger (PostMessage {| type := js "response"; text := trim output |})
    | inr error =>
        trigger (PostMessage {| type := js "error"; text := message error |})
    end
  else Ret tt.

(** [startChat]. The page given to the panel is [getChatHtml(modelName)],
    a fixed template around the model name whose script is [ChatView]
    below; the registered callback is [onMessage modelName]. *)
Definition startChat : Prog unit :=
  modelName <- trigger (ShowInputBox (js "Enter the model name to chat with")
                                     (js "e.g., llama3.2")) ;;
  match modelName with
  | None => Ret tt
  | Some modelName =>
      if negb (truthy modelName) then Ret tt
      else
        trigger (CreateWebviewPanel (js "pyollamaChat")
                                    (js "PyOllama Chat - " ++ modelName)) ;;
        trigger (SetWebviewHtml modelName) ;;
        trigger (OnDidReceiveMessage modelName)
  end.

Definition generateText : Prog unit :=
  editor <- trigger ActiveTextEditor ;;
  match editor with
  | None => trigger (ShowErrorMessage (js "No active editor found"))
  | Some editor =>
      let selectedText := selectedText editor in
      if negb (truthy selectedText) then
        trigger (ShowErrorMessage (js "Please select some text to use as a prompt"))
      else
        modelName <- trigger (ShowInputBox (js "Enter the model name")
                                           (js "e.g., llama3.2")) ;;
        match modelName with
        | None => Ret tt
        | Some modelName =>
            if negb (truthy modelName) then Ret tt
            else
              r <- runPyOllamaCommand
                     [js "generate"; modelName; [dquote] ++ selectedText ++ [dquote]] ;;
              match r with
              | inl output =>
                  trigger (EditInsert (selection_end editor)
                                      ([LF; LF] ++ trim output))
              | inr error =>
                  trigger (ShowErrorMessage
                             (js "Generation failed: " ++ message error))
              end
        end
  end.

(** ** The script of the chat page *)

Module ChatView.

(** One [div] of [#chat-container]: class [user-message] or
    [assistant-message], and its text. *)
Record Div : Type := { isUser : bool; textContent : jsstring }.

Definition addMessage (text : jsstring) (isUser : bool) (container : list Div)
  : list Div :=
  container ++ [{| isUser := isUser; textContent := text |}].

(** [sendMessage()] with [value] in the input field: the new container
    and the message posted to the extension, if any. *)
Definition sendMessage (value : jsstring) (container : list Div)
  : list Div * option Message :=
  let text := trim value in
  if truthy text
  then (addMessage text true container,
        Some {| type := js "sendMessage"; text := text |})
  else (container, None).

(** The listener of the window's [message] event. *)
Definition onWindowMessage (m : Message) (container : list Div) : list Div :=
  if jsstring_eqb (type m) (js "response") then
    addMessage (text m) false container
  else if jsstring_eqb (type m) (js "error") then
    addMessage (js "Error: " ++ text m) false container
  else container.

Definition userTurns (container : list Div) : nat :=
  List.length (filter isUser container).

Definition replyTurns (container : list Div) : nat :=
  List.length (filter (fun d => negb (isUser d)) container).

End ChatView.

(** ** An open chat session

    Callbacks interleave: awaiting the child process is where a callback
    is suspended, and other events are handled meanwhile. *)

Module ChatSession.

Definition is_spawn {X : Type} (e : HostE X) : bool :=
  match e with Spawn _ => true | _ => false end.

Definition finished {A : Type} (p : Prog A) : bool :=
  match p with Ret _ => true | Vis _ _ => false end.

(** Runs a program up to its next [await execAsync] or to its end. *)
Fixpoint advance {A : Type} (h : Host) (p : Prog A) : list Event * Prog A :=
  match p with
  | Ret _ => ([], p)
  | Vis e k =>
      if is_spawn e then ([ev e], p)
      else let r := advance h (k (answer h e)) in (ev e :: fst r, snd r)
  end.

(** The awaited child process ends with [r]. *)
Definition resume {A : Type} (r : ProcessRun) (p : Prog A) : Prog A :=
  match p with
  | Ret _ => p
  | Vis e k =>
      match e in HostE X return (X -> Prog A) -> Prog A with
      | Spawn _ => fun k => k r
      | _ => fun _ => p
      end k
  end.

(** The model the panel was opened for, the turns shown in the page, the
    messages the page posted to the extension, the callbacks waiting for
    their child process, and the messages posted to the page that it has
    not received yet. *)
Record Session : Type := {
  boundModel : jsstring;
  container : list ChatView.Div;
  sent : list Message;
  inflight : list (Prog unit);
  outbox : list Message
}.

Definition open (modelName : jsstring) : Session :=
  {| boundModel := modelName; container := []; sent := [];
     inflight := []; outbox := [] |}.

(** The user presses Send with [value] in the input field; the child of
    the [i]-th waiting callback ends with [r]; the page receives the
    oldest message posted to it. *)
Inductive SessionEvent : Type :=
| Send (value : jsstring)
| Completes (i : nat) (r : ProcessRun)
| Delivers.

Definition park (p : Prog unit) : list (Prog unit) :=
  if finished p then [] else [p].

Fixpoint remove_nth {A : Type} (i : nat) (l : list A) : list A :=
  match l, i with
  | [], _ => []
  | _ :: l', O => l'
  | x :: l', S i' => x :: remove_nth i' l'
  end.

Definition step (h : Host) (s : Session) (e : SessionEvent) : Session :=
  match e with
  | Send value =>
      let v := ChatView.sendMessage value (container s) in
      match snd v with
      | None => s
      | Some m =>
          let a := advance h (onMessage (boundModel s) m) in
          {| boundModel := boundModel s;
             container := fst v;
             sent := sent s ++ [m];
             inflight := inflight s ++ park (snd a);
             outbox := outbox s ++ posted (fst a) |}
      end
  | Completes i r =>
      match nth_error (inflight s) i with
      | None => s
      | Some p =>
          let a := advance h (resume r p) in
          {| boundModel := boundModel s;
             container := container s;
             sent := sent s;
             inflight := remove_nth i (inflight s) ++ park (snd a);
             outbox := outbox s ++ posted (fst a) |}
      end
  | Delivers =>
      match outbox s with
      | [] => s
      | m :: rest =>
          {| boundModel := boundModel s;
             container := ChatView.onWindowMessage m (container s);
             sent := sent s;
             inflight := inflight s;
             outbox := rest |}
      end
  end.

Definition play (h : Host) (es : list SessionEvent) (s : Session) : Session :=
  fold_left (step h) es s.

Definition resolved (s : Session) : Prop :=
  inflight s = [] /\ outbox s = [].

(** The [SendMessage] events among [es]: the presses of Send with
    something other than white space in the input field. *)
Definition posts (e : SessionEvent) : bool :=
  match e with
  | Send value => truthy (trim value)
  | _ => false
  end.

Definition sends (es : list SessionEvent) : nat :=
  List.length (filter posts es).

End ChatSession.

(** ** The shell

    On a POSIX host [exec] hands the command line to [/bin/sh -c], as one
    argument. The shell is modelled as far as blanks, quotes and a leading
    tilde go: unquoted blanks separate words, a pair of double or single
    quotes groups and the quotes themselves are removed, and a tilde that
    starts a word and is followed by a slash, a blank or nothing is
    replaced by the home directory. A command line with anything else
    that the shell may interpret (other expansions, operators, escapes, an
    open quote, a reserved word or a builtin for a command name) has no
    value here, nor has one that cannot be handed to the shell at all. *)

Module Shell.

Definition squote : N := 39.
Definition tilde : N := 126.
Definition slash : N := 47.

Definition is_blank (c : N) : bool := (c =? 32) || (c =? 9).

(** Unquoted characters that may mean something to the shell, and the
    null character, which no argument can hold. *)
Definition is_special (c : N) : bool :=
  existsb (N.eqb c)
    (0 :: LF :: dquote :: squote
       :: js "|&;<>()$`\*?[]#~=%!{}^").

(** Characters that start an expansion or an escape between double
    quotes, and the null character. *)
Definition is_special_dq (c : N) : bool :=
  existsb (N.eqb c) (0 :: js "$`\").

Inductive Mode : Type := Bare | InDouble | InSingle.

Definition push (cur : option jsstring) (c : N) : option jsstring :=
  match cur with
  | None => Some [c]
  | Some w => Some (w ++ [c])
  end.

Definition start (cur : option jsstring) : option jsstring :=
  match cur with
  | None => Some []
  | Some w => Some w
  end.

Definition close_word (cur : option jsstring) (rest : option (list jsstring))
  : option (list jsstring) :=
  match cur with
  | None => rest
  | Some w => option_map (cons w) rest
  end.

(** Whether a tilde followed by [s] is a whole tilde-prefix. *)
Definition ends_tilde_prefix (s : jsstring) : bool :=
  match s with
  | [] => true
  | d :: _ => is_blank d || (d =? slash)
  end.

Definition at_word_start (cur : option jsstring) : bool :=
  match cur with None => true | Some _ => false end.

(** Field splitting; [home] is what the shell puts for a tilde-prefix,
    when that is known. *)
Fixpoint split (home : option jsstring) (mode : Mode) (cur : option jsstring)
         (s : jsstring) : option (list jsstring) :=
  match s with
  | [] =>
      match mode with
      | Bare => close_word cur (Some [])
      | _ => None
      end
  | c :: s' =>
      match mode with
      | Bare =>
          if is_blank c then close_word cur (split home Bare None s')
          else if c =? dquote then split home InDouble (start cur) s'
          else if c =? squote then split home InSingle (start cur) s'
          else if (c =? tilde) && at_word_start cur then
            match home with
            | Some dir =>
                if ends_tilde_prefix s' then split home Bare (Some dir) s'
                else None
            | None => None
            end
          else if is_special c then None
          else split home Bare (push cur c) s'
      | InDouble =>
          if c =? dquote then split home Bare cur s'
          else if is_special_dq c then None
          else split home InDouble (push cur c) s'
      | InSingle =>
          if c =? squote then split home Bare cur s'
          else split home InSingle (push cur c) s'
      end
  end.

Definition words (home : option jsstring) (s : jsstring)
  : option (list jsstring) :=
  split home Bare None s.

(** The longest string the kernel takes as one argument (Linux, 4 KiB
    pages): 32 pages, the terminating null byte included. *)
Definition arg_limit : N := 131071.

(** A command line that [exec] can hand to the shell as it is: no null
    character, nothing that UTF-8 cannot encode, and it is not too
    long. *)
Definition fits (command : jsstring) : bool :=
  negb (existsb (N.eqb 0) command)
  && wellFormed command
  && (byteLength command <=? arg_limit).

(** Command names that the shell does not look up as a program: its
    reserved words and the builtins of sh, dash and bash. *)
Definition shell_words : list jsstring :=
  map js
      ["if"; "then"; "else"; "elif"; "fi"; "do"; "done"; "case"; "esac";
       "while"; "until"; "for"; "in"; "function"; "select"; "time"; "coproc";
       "."; ":"; "break"; "continue"; "eval"; "exec"; "exit"; "export";
       "readonly"; "return"; "set"; "shift"; "times"; "trap"; "unset";
       "alias"; "bg"; "bind"; "builtin"; "caller"; "cd"; "chdir"; "command";
       "compgen"; "complete"; "compopt"; "declare"; "dirs"; "disown"; "echo";
       "enable"; "false"; "fc"; "fg"; "getopts"; "hash"; "help"; "history";
       "jobs"; "kill"; "let"; "local"; "logout"; "mapfile"; "popd"; "printf";
       "pushd"; "pwd"; "read"; "readarray"; "source"; "suspend"; "test";
       "true"; "type"; "typeset"; "ulimit"; "umask"; "unalias"; "wait"]%string.

Definition runs_program (name : jsstring) : bool :=
  negb (existsb (jsstring_eqb name) shell_words).

(** The command name and the arguments of the command the shell runs. *)
Definition argv_in (home : option jsstring) (command : jsstring)
  : option (list jsstring) :=
  if fits command then
    match words home command with
    | Some (name :: args) =>
        if runs_program name then Some (name :: args) else None
    | _ => None
    end
  else None.

(** The same, for a command line whose words do not depend on the home
    directory. *)
Definition argv (command : jsstring) : option (list jsstring) :=
  argv_in None command.





End Shell.

(** What the settings make of the two paths. *)
Definition pythonPath_of (h : Host) : jsstring := result h getPythonPath.
Definition modelDir_of (h : Host) : jsstring := result h getModelDir.

(** The command line [runPyOllamaCommand] builds on a host, and the two
    settings it reads first. *)
Definition command_of (h : Host) (args : list jsstring) : jsstring :=
  command_line (pythonPath_of h) (modelDir_of h) args.

Definition config_reads : list Event :=
  [ev (ConfigGet (js "pyollama") (js "pythonPath"));
   ev (ConfigGet (js "pyollama") (js "modelDir"))].

(** The arguments of the two call sites of [generate]. *)
Definition chat_args (modelName prompt : jsstring) : list jsstring :=
  [js "generate"; modelName; prompt].

Definition oneshot_args (modelName selectedText : jsstring) : list jsstring :=
  [js "generate"; modelName; [dquote] ++ selectedText ++ [dquote]].

Definition sendMessageOf (prompt : jsstring) : Message :=
  {| type := js "sendMessage"; text := prompt |}.

(** A child process that did not end well: a non-zero exit status, or no
    process at all. *)
Definition failed (r : ProcessRun) : bool :=
  match r with
  | Exited st _ _ => negb (st =? 0)%Z
  | SpawnFailed _ => true
  end.

Definition is_reply (m : Message) : bool :=
  jsstring_eqb (type m) (js "response") || jsstring_eqb (type m) (js "error").

(** A suspended callback that, whatever becomes of the child it waits
    for, ends at once after posting one response or error. *)
Definition replies_once (h : Host) (p : Prog unit) : Prop :=
  ChatSession.finished p = false
  /\ forall r : ProcessRun,
      ChatSession.finished (snd (ChatSession.advance h (ChatSession.resume r p))) = true
      /\ exists m : Message,
          posted (fst (ChatSession.advance h (ChatSession.resume r p))) = [m]
          /\ is_reply m = true.

(** The bookkeeping of an open session: every message sent shows as one
    user turn, and has one reply that is shown, on its way to the view, or
    still awaited. *)
Record balanced (h : Host) (s : ChatSession.Session) : Prop := {
  users_sent :
    ChatView.userTurns (ChatSession.container s) = List.length (ChatSession.sent s);
  replies_sent :
    (ChatView.replyTurns (ChatSession.container s)
     + List.length (ChatSession.outbox s)
     + List.length (ChatSession.inflight s))%nat
    = List.length (ChatSession.sent s);
  inflight_reply : Forall (replies_once h) (ChatSession.inflight s);
  outbox_replies : Forall (fun m => is_reply m = true) (ChatSession.outbox s)
}.

Definition selectedText_of (h : Host) : jsstring :=
  match activeTextEditor h with
  | Some ed => selectedText ed
  | None => []
  end.

(** The same host with another answer to the input box, another editor,
    another child. *)
Definition with_inputBox (v : option jsstring) (h : Host) : Host :=
  {| settings := settings h; inputBox := v;
     activeTextEditor := activeTextEditor h; child := child h |}.

Definition with_editor (e : option Editor) (h : Host) : Host :=
  {| settings := settings h; inputBox := inputBox h;
     activeTextEditor := e; child := child h |}.

Definition with_child (c : jsstring -> ProcessRun) (h : Host) : Host :=
  {| settings := settings h; inputBox := inputBox h;
     activeTextEditor := activeTextEditor h; child := c |}.

(** Hosts and inputs the statements below are tried on. *)
Module Examples.

Definition origin : Position := {| line := 0; character := 0 |}.

Definition hello_out : jsstring := js "hello" ++ [LF; SP; SP].

(** Default settings, [Hi] selected, the user names [llama3.2]; the
    runner prints [hello], a newline and two spaces, and a warning. *)
Definition desk : Host :=
  {| settings := fun _ _ => None;
     inputBox := Some (js "llama3.2");
     activeTextEditor :=
       Some {| selection_end := origin; selectedText := js "Hi" |};
     child := fun _ => Exited 0 hello_out (js "warning: slow") |}.

(** The same desk with the models under [/opt/models]. *)
Definition opt_settings (s k : jsstring) : option jsstring :=
  if jsstring_eqb k (js "modelDir") then Some (js "/opt/models") else None.

Definition opt_desk : Host :=
  {| settings := opt_settings;
     inputBox := inputBox desk;
     activeTextEditor := activeTextEditor desk;
     child := child desk |}.

Definition broken : Host :=
  with_child (fun _ => Exited 1 [] (js "No such model")) desk.

Definition nothing_selected : Host :=
  with_editor (Some {| selection_end := origin; selectedText := [] |}) desk.



(** The selection [say "hi there"], quotes included. *)
Definition quoting : Host :=
  with_editor
    (Some {| selection_end := origin;
             selectedText := js "say " ++ [dquote] ++ js "hi there" ++ [dquote] |})
    opt_desk.

(** Standard error of one byte more than [exec] buffers, from a child
    that exits with status zero all the same. *)
Definition flood : jsstring := repeat 120 (N.to_nat 1048577).

Definition flooding : Host :=
  with_child (fun _ => Exited 0 (js "ok") flood) desk.

(** The home directory the shell puts for a tilde. *)
Definition home : jsstring := js "/home/dev".

(** Two messages; the second is answered first, the first fails. *)
Definition two_turns : list ChatSession.SessionEvent :=
  [ChatSession.Send (js "hi");
   ChatSession.Send (js " yo ");
   ChatSession.Completes 1 (Exited 0 (js "fine ") []);
   ChatSession.Completes 0 (SpawnFailed (js "spawn python ENOENT"));
   ChatSession.Delivers;
   ChatSession.Delivers].

End Examples.

(** ** The rest of the extension *)

(** [activate]: the command identifiers it registers and the function
    each one awaits. *)
Definition commands : list (jsstring * Prog unit) :=
  [(js "pyollama.chat", startChat);
   (js "pyollama.generate", generateText);
   (js "pyollama.listModels", listModels)].

(** The callback of an identifier, as [executeCommand] finds it. *)
Fixpoint handler_of (id : jsstring) (table : list (jsstring * Prog unit))
  : option (Prog unit) :=
  match table with
  | [] => None
  | (name, p) :: rest => if jsstring_eqb id name then Some p else handler_of id rest
  end.

(** What [config.get] gives for a key of the [pyollama] section. *)
Definition setting_or (h : Host) (key default : jsstring) : jsstring :=
  match settings h (js "pyollama") key with
  | Some v => v
  | None => default
  end.

(** The callback of a chat for [modelName], suspended on the child it
    spawned for [prompt]. *)
Definition waiting (h : Host) (modelName prompt : jsstring) : Prog unit :=
  snd (ChatSession.advance h (onMessage modelName (sendMessageOf prompt))).

(** What that callback posts once its child has ended with [r], and the
    turn the page makes of it. *)
Definition reply_message (h : Host) (modelName prompt : jsstring) (r : ProcessRun)
  : Message :=
  match settle (command_of h (chat_args modelName prompt)) r with
  | inl (out, _) => {| type := js "response"; text := trim out |}
  | inr e =>
      {| type := js "error";
         text := js "PyOllama command failed: " ++ message e |}
  end.

Definition reply_turn (h : Host) (modelName prompt : jsstring) (r : ProcessRun)
  : ChatView.Div :=
  match settle (command_of h (chat_args modelName prompt)) r with
  | inl (out, _) =>
      {| ChatView.isUser := false; ChatView.textContent := trim out |}
  | inr e =>
      {| ChatView.isUser := false;
         ChatView.textContent :=
           js "Error: " ++ js "PyOllama command failed: " ++ message e |}
  end.

Definition user_turn (value : jsstring) : ChatView.Div :=
  {| ChatView.isUser := true; ChatView.textContent := trim value |}.

(** A message as the page posts them: a [sendMessage] whose text is not
    empty and has no white space left at either end. *)
Definition well_sent (m : Message) : Prop :=
  type m = js "sendMessage" /\ truthy (text m) = true /\ trim (text m) = text m.


(** * Properties *)

Section Running.

Variable h : Host.

Lemma run_bind (A B : Type) (p : Prog A) (f : A -> Prog B) :
  run h (bind p f) =
    (fst (run h p) ++ fst (run h (f (snd (run h p)))),
     snd (run h (f (snd (run h p))))).
Proof.
  induction p as [a | X e k IH]; simpl.
  - destruct (run h (f a)); reflexivity.
  - rewrite IH. reflexivity.
Qed.

Lemma trace_bind (A B : Type) (p : Prog A) (f : A -> Prog B) :
  trace h (bind p f) = trace h p ++ trace h (f (result h p)).
Proof. unfold trace, result. rewrite run_bind. reflexivity. Qed.

Lemma result_bind (A B : Type) (p : Prog A) (f : A -> Prog B) :
  result h (bind p f) = result h (f (result h p)).
Proof. unfold result. rewrite run_bind. reflexivity. Qed.

(** [runPyOllamaCommand] in one equation: it reads the two settings,
    spawns the command line, warns when the child wrote to standard
    error, and returns standard output or throws. *)
Lemma run_runPyOllamaCommand (args : list jsstring) :
  run h (runPyOllamaCommand args) =
    let command := command_of h args in
    match settle command (child h command) with
    | inl (out, err) =>
        (config_reads ++ [ev (Spawn command)]
           ++ (if truthy err
               then [ev (ConsoleWarn (js "PyOllama stderr:") err)] else []),
         inl out)
    | inr e =>
        (config_reads ++ [ev (Spawn command)],
         inr (Error (js "PyOllama command failed: " ++ message e)))
    end.
Proof.
  unfold runPyOllamaCommand, command_of, pythonPath_of, modelDir_of, result.
  cbn.
  destruct (settle _ _) as [[out err] | e]; cbn; [|reflexivity].
  destruct (truthy err); reflexivity.
Qed.

Lemma within_buffer_inv (out err : jsstring) :
  within_buffer out err = true ->
  (maxBuffer <? byteLength out) = false /\ (maxBuffer <? byteLength err) = false.
Proof.
  unfold within_buffer. rewrite andb_true_iff, !N.leb_le, !N.ltb_ge. tauto.
Qed.

Lemma settle_exit0 (c out err : jsstring) :
  within_buffer out err = true ->
  settle c (Exited 0 out err) = inl (out, err).
Proof.
  intros W. destruct (within_buffer_inv _ _ W) as [O E].
  unfold settle. rewrite O, E. reflexivity.
Qed.

(** More than [maxBuffer] bytes on standard error alone make the promise
    reject, whatever the exit status. *)
Lemma settle_stderr_overflow (c out err : jsstring) (st : Z) :
  (byteLength out <=? maxBuffer) = true ->
  (maxBuffer <? byteLength err) = true ->
  settle c (Exited st out err)
  = inr (Error (js "stderr maxBuffer length exceeded")).
Proof.
  intros O E. unfold settle. rewrite E.
  apply N.leb_le, N.ltb_ge in O. rewrite O. reflexivity.
Qed.

Lemma byteLength_repeat (c : N) (n : nat) :
  (c <? 0x80) = true -> byteLength (repeat c n) = N.of_nat n.
Proof.
  intros A. induction n as [|n IH]; [reflexivity|].
  cbn [repeat byteLength]. rewrite A, IH. lia.
Qed.

Lemma settle_failed (c : jsstring) (r : ProcessRun) :
  failed r = true -> exists e, settle c r = inr e.
Proof.
  destruct r as [st out err | reason]; unfold settle; cbn [failed]; intros F.
  - destruct (maxBuffer <? byteLength out); [eexists; reflexivity|].
    destruct (maxBuffer <? byteLength err); [eexists; reflexivity|].
    destruct st; [discriminate | eexists; reflexivity ..].
  - eexists; reflexivity.
Qed.

Lemma spawned_app (t u : list Event) : spawned (t ++ u) = spawned t ++ spawned u.
Proof. unfold spawned. apply flat_map_app. Qed.

Lemma posted_app (t u : list Event) : posted (t ++ u) = posted t ++ posted u.
Proof. unfold posted. apply flat_map_app. Qed.

Lemma spawned_runPyOllamaCommand (args : list jsstring) :
  spawned (trace h (runPyOllamaCommand args)) = [command_of h args].
Proof.
  unfold trace. rewrite run_runPyOllamaCommand. cbv zeta.
  destruct (settle _ _) as [[out err] | e]; [|reflexivity].
  destruct (truthy err); reflexivity.
Qed.

Lemma posted_runPyOllamaCommand (args : list jsstring) :
  posted (trace h (runPyOllamaCommand args)) = [].
Proof.
  unfold trace. rewrite run_runPyOllamaCommand. cbv zeta.
  destruct (settle _ _) as [[out err] | e]; [|reflexivity].
  destruct (truthy err); reflexivity.
Qed.

(** The callback on a [sendMessage]: the gateway call, then one
    message to the webview. *)
Lemma run_onMessage (modelName prompt : jsstring) :
  run h (onMessage modelName (sendMessageOf prompt)) =
    (trace h (runPyOllamaCommand (chat_args modelName prompt))
       ++ [ev (PostMessage
                 match result h (runPyOllamaCommand (chat_args modelName prompt)) with
                 | inl output => {| type := js "response"; text := trim output |}
                 | inr error => {| type := js "error"; text := message error |}
                 end)],
     tt).
Proof.
  unfold onMessage, sendMessageOf.
  change (jsstring_eqb _ _) with true. cbv iota.
  rewrite run_bind. fold (chat_args modelName prompt).
  unfold trace, result.
  destruct (snd (run h (runPyOllamaCommand _))); reflexivity.
Qed.

End Running.

Arguments runPyOllamaCommand : simpl never.

(** ** Failure and success of the gateway *)

(** C4. Whenever the child process ends with a non-zero status or cannot
    be spawned, the execution is a failure and [runPyOllamaCommand] throws
    one error whose message, the underlying one behind a fixed prefix, is
    not empty; it does not return an output. *)
Theorem failed_process_is_gateway_error (h : Host) (args : list jsstring) :
  failed (child h (command_of h args)) = true ->
  exists e : JsError,
    settle (command_of h args) (child h (command_of h args)) = inr e
    /\ result h (runPyOllamaCommand args)
       = inr (Error (js "PyOllama command failed: " ++ message e))
    /\ truthy (js "PyOllama command failed: " ++ message e) = true
    /\ forall out, result h (runPyOllamaCommand args) <> inl out.
Proof.
  intros F.
  destruct (settle_failed (command_of h args) _ F) as [e He].
  exists e. split; [exact He|].
  assert (R : result h (runPyOllamaCommand args)
              = inr (Error (js "PyOllama command failed: " ++ message e))).
  { unfold result. rewrite run_runPyOllamaCommand. cbv zeta.
    rewrite He. reflexivity. }
  split; [exact R|]. split; [reflexivity|].
  intros out. rewrite R. discriminate.
Qed.

Lemma failed_process_is_gateway_error_witness :
  failed (child Examples.broken (command_of Examples.broken [js "list"])) = true
  /\ exists e : JsError,
      settle (command_of Examples.broken [js "list"])
             (child Examples.broken (command_of Examples.broken [js "list"])) = inr e
      /\ result Examples.broken (runPyOllamaCommand [js "list"])
         = inr (Error (js "PyOllama command failed: " ++ message e))
      /\ truthy (js "PyOllama command failed: " ++ message e) = true
      /\ forall out, result Examples.broken (runPyOllamaCommand [js "list"]) <> inl out.
Proof.
  split; [reflexivity|].
  apply (failed_process_is_gateway_error Examples.broken [js "list"]).
  reflexivity.
Defined.

(** C5, as stated, fails: a child that exits with status zero after
    writing one byte more than [exec] buffers to standard error makes the
    call throw. *)
Lemma large_stderr_fails_despite_exit_zero :
  child Examples.flooding (command_of Examples.flooding [js "list"])
  = Exited 0 (js "ok") Examples.flood
  /\ byteLength Examples.flood = 1048577
  /\ result Examples.flooding (runPyOllamaCommand [js "list"])
     = inr (Error (js "PyOllama command failed: stderr maxBuffer length exceeded")).
Proof.
  assert (B : byteLength Examples.flood = 1048577).
  { unfold Examples.flood. rewrite byteLength_repeat by reflexivity.
    apply N2Nat.id. }
  split; [reflexivity|]. split; [exact B|].
  unfold result. rewrite run_runPyOllamaCommand. cbv zeta.
  change (child Examples.flooding (command_of Examples.flooding [js "list"]))
    with (Exited 0 (js "ok") Examples.flood).
  rewrite settle_stderr_overflow; [reflexivity | reflexivity |].
  rewrite B. reflexivity.
Qed.

(** C5, amended. When the child process exits with status zero and
    neither stream has more bytes than [exec] buffers, the call returns
    the captured standard output, whatever standard error holds; standard
    error, when not empty, is passed to [console.warn] and nothing else
    is done with it. *)
Theorem exit_zero_succeeds_despite_stderr
        (h : Host) (args : list jsstring) (out err : jsstring) :
  child h (command_of h args) = Exited 0 out err ->
  within_buffer out err = true ->
  result h (runPyOllamaCommand args) = inl out
  /\ trace h (runPyOllamaCommand args)
     = config_reads ++ [ev (Spawn (command_of h args))]
         ++ (if truthy err
             then [ev (ConsoleWarn (js "PyOllama stderr:") err)] else []).
Proof.
  intros E W. unfold result, trace.
  rewrite run_runPyOllamaCommand. cbv zeta. rewrite E, (@settle_exit0 _ _ _ W).
  split; reflexivity.
Qed.

Lemma exit_zero_succeeds_despite_stderr_witness :
  child Examples.desk (command_of Examples.desk [js "list"])
    = Exited 0 Examples.hello_out (js "warning: slow")
  /\ within_buffer Examples.hello_out (js "warning: slow") = true
  /\ result Examples.desk (runPyOllamaCommand [js "list"]) = inl Examples.hello_out
  /\ trace Examples.desk (runPyOllamaCommand [js "list"])
     = config_reads ++ [ev (Spawn (command_of Examples.desk [js "list"]))]
         ++ (if truthy (js "warning: slow")
             then [ev (ConsoleWarn (js "PyOllama stderr:") (js "warning: slow"))]
             else []).
Proof.
  split; [reflexivity|]. split; [reflexivity|].
  apply (exit_zero_succeeds_despite_stderr Examples.desk [js "list"]);
    reflexivity.
Defined.

(** ** Trimming *)

(** C6, as stated, fails: for a child that exits 0 after printing [hello],
    a newline and two spaces, [runPyOllamaCommand] does not return
    [hello]. *)
Lemma executor_does_not_trim :
  child Examples.desk (command_of Examples.desk [js "list"])
    = Exited 0 (js "hello" ++ [LF; SP; SP]) (js "warning: slow")
  /\ result Examples.desk (runPyOllamaCommand [js "list"]) <> inl (js "hello").
Proof.
  split; [reflexivity|].
  vm_compute. discriminate.
Qed.

Section Callers.

Variable h : Host.

Lemma result_exit0 (args : list jsstring) (out err : jsstring) :
  child h (command_of h args) = Exited 0 out err ->
  within_buffer out err = true ->
  result h (runPyOllamaCommand args) = inl out.
Proof.
  intros E W. unfold result. rewrite run_runPyOllamaCommand. cbv zeta.
  rewrite E, (@settle_exit0 _ _ _ W). reflexivity.
Qed.

(** [generateText] once an editor with a selection and a model name are
    there: the two questions, the gateway call, then the insertion or
    the error notice. *)
Lemma run_generateText (ed : Editor) (modelName : jsstring) :
  activeTextEditor h = Some ed ->
  inputBox h = Some modelName ->
  truthy (selectedText ed) = true ->
  truthy modelName = true ->
  trace h generateText =
    [ev ActiveTextEditor;
     ev (ShowInputBox (js "Enter the model name") (js "e.g., llama3.2"))]
      ++ trace h (runPyOllamaCommand (oneshot_args modelName (selectedText ed)))
      ++ [match result h (runPyOllamaCommand
                            (oneshot_args modelName (selectedText ed))) with
          | inl output =>
              ev (EditInsert (selection_end ed) ([LF; LF] ++ trim output))
          | inr error =>
              ev (ShowErrorMessage (js "Generation failed: " ++ message error))
          end].
Proof.
  intros HE HI HS HM.
  unfold trace, generateText. cbn. rewrite HE. cbn. rewrite HS. cbn.
  rewrite HI. cbn. rewrite HM. cbn.
  rewrite run_bind. fold (oneshot_args modelName (selectedText ed)).
  unfold result. cbn.
  destruct (snd (run h (runPyOllamaCommand _))); reflexivity.
Qed.

Lemma inserted_app (t u : list Event) :
  inserted (t ++ u) = inserted t ++ inserted u.
Proof. unfold inserted. apply flat_map_app. Qed.

Lemma inserted_runPyOllamaCommand (args : list jsstring) :
  inserted (trace h (runPyOllamaCommand args)) = [].
Proof.
  unfold trace. rewrite run_runPyOllamaCommand. cbv zeta.
  destruct (settle _ _) as [[out err] | e]; [|reflexivity].
  destruct (truthy err); reflexivity.
Qed.

End Callers.

(** C6, amended. For a child that exits 0 with no more on either stream
    than [exec] buffers, [runPyOllamaCommand] returns standard output as
    captured; it is the chat callback and the one-shot generate that
    apply [trim], which strips white space at both ends, before posting
    the response or inserting the text. Standard output [hello], newline,
    two spaces reaches them as [hello]. *)
Theorem executor_returns_stdout_callers_trim (h : Host) :
  (forall args out err,
      child h (command_of h args) = Exited 0 out err ->
      within_buffer out err = true ->
      result h (runPyOllamaCommand args) = inl out)
  /\ (forall modelName prompt out err,
        child h (command_of h (chat_args modelName prompt)) = Exited 0 out err ->
        within_buffer out err = true ->
        posted (trace h (onMessage modelName (sendMessageOf prompt)))
        = [{| type := js "response"; text := trim out |}])
  /\ (forall ed modelName out err,
        activeTextEditor h = Some ed ->
        inputBox h = Some modelName ->
        truthy (selectedText ed) = true ->
        truthy modelName = true ->
        child h (command_of h (oneshot_args modelName (selectedText ed)))
        = Exited 0 out err ->
        within_buffer out err = true ->
        inserted (trace h generateText)
        = [(selection_end ed, [LF; LF] ++ trim out)])
  /\ trim (js "hello" ++ [LF; SP; SP]) = js "hello"
  /\ trim ([SP; LF] ++ js "hello") = js "hello".
Proof.
  split; [|split; [|split; [|split]]].
  - intros args out err E W. exact (result_exit0 h args E W).
  - intros modelName prompt out err E W.
    unfold trace. rewrite run_onMessage. cbn [fst].
    rewrite posted_app, posted_runPyOllamaCommand.
    rewrite (result_exit0 h _ E W). reflexivity.
  - intros ed modelName out err HE HI HS HM E W.
    rewrite (@run_generateText h ed modelName HE HI HS HM).
    rewrite !inserted_app, inserted_runPyOllamaCommand.
    rewrite (result_exit0 h _ E W). reflexivity.
  - reflexivity.
  - reflexivity.
Qed.

Lemma executor_returns_stdout_callers_trim_witness :
  result Examples.desk (runPyOllamaCommand [js "list"]) = inl Examples.hello_out
  /\ posted (trace Examples.desk (onMessage (js "llama3.2") (sendMessageOf (js "Hi"))))
     = [{| type := js "response"; text := js "hello" |}]
  /\ inserted (trace Examples.desk generateText)
     = [(Examples.origin, [LF; LF] ++ js "hello")].
Proof.
  destruct (executor_returns_stdout_callers_trim Examples.desk)
    as [R [C [G _]]].
  split; [|split].
  - apply (R [js "list"] Examples.hello_out (js "warning: slow")); reflexivity.
  - apply (C (js "llama3.2") (js "Hi") Examples.hello_out (js "warning: slow"));
      reflexivity.
  - apply (G {| selection_end := Examples.origin; selectedText := js "Hi" |}
             (js "llama3.2") Examples.hello_out (js "warning: slow"));
      reflexivity.
Defined.

(** ** Missing input *)

(** C7. With an editor whose selection is empty, [generateText] shows the
    error notice and returns: the input box is never shown and no command
    is handed to [exec]. *)
Theorem empty_selection_short_circuits (h : Host) (ed : Editor) :
  activeTextEditor h = Some ed ->
  selectedText ed = [] ->
  trace h generateText
  = [ev ActiveTextEditor;
     ev (ShowErrorMessage (js "Please select some text to use as a prompt"))]
  /\ spawned (trace h generateText) = []
  /\ existsb is_prompt (trace h generateText) = false.
Proof.
  intros HE HS.
  assert (T : trace h generateText
              = [ev ActiveTextEditor;
                 ev (ShowErrorMessage
                       (js "Please select some text to use as a prompt"))]).
  { unfold trace, generateText. cbn. rewrite HE. cbn. rewrite HS. reflexivity. }
  rewrite T. repeat split.
Qed.

Lemma empty_selection_short_circuits_witness :
  activeTextEditor Examples.nothing_selected
  = Some {| selection_end := Examples.origin; selectedText := [] |}
  /\ trace Examples.nothing_selected generateText
     = [ev ActiveTextEditor;
        ev (ShowErrorMessage (js "Please select some text to use as a prompt"))]
  /\ spawned (trace Examples.nothing_selected generateText) = []
  /\ existsb is_prompt (trace Examples.nothing_selected generateText) = false.
Proof.
  split; [reflexivity|].
  apply (@empty_selection_short_circuits Examples.nothing_selected
           {| selection_end := Examples.origin; selectedText := [] |});
    reflexivity.
Defined.

(** C8. When the user dismisses the model-name prompt, [startChat] does
    nothing but ask: no panel is created, no callback is registered and
    no command is handed to [exec]. *)
Theorem cancelled_prompt_opens_nothing (h : Host) :
  inputBox h = None ->
  trace h startChat
  = [ev (ShowInputBox (js "Enter the model name to chat with")
                      (js "e.g., llama3.2"))]
  /\ existsb is_panel (trace h startChat) = false
  /\ spawned (trace h startChat) = [].
Proof.
  intros HI.
  assert (T : trace h startChat
              = [ev (ShowInputBox (js "Enter the model name to chat with")
                                  (js "e.g., llama3.2"))]).
  { unfold trace, startChat. cbn. rewrite HI. reflexivity. }
  rewrite T. repeat split.
Qed.

Lemma cancelled_prompt_opens_nothing_witness :
  inputBox (with_inputBox None Examples.desk) = None
  /\ trace (with_inputBox None Examples.desk) startChat
     = [ev (ShowInputBox (js "Enter the model name to chat with")
                         (js "e.g., llama3.2"))]
  /\ existsb is_panel (trace (with_inputBox None Examples.desk) startChat) = false
  /\ spawned (trace (with_inputBox None Examples.desk) startChat) = [].
Proof.
  split; [reflexivity|].
  apply (cancelled_prompt_opens_nothing (with_inputBox None Examples.desk)).
  reflexivity.
Defined.

Lemma spawned_generateText_no_name (h : Host) :
  match inputBox h with None => true | Some n => negb (truthy n) end = true ->
  spawned (trace h generateText) = [].
Proof.
  intros HI. unfold trace, generateText. cbn.
  destruct (activeTextEditor h) as [ed|]; cbn; [|reflexivity].
  destruct (truthy (selectedText ed)); cbn; [|reflexivity].
  destruct (inputBox h) as [n|]; cbn; [|reflexivity].
  cbn in HI. rewrite HI. reflexivity.
Qed.

(** C9. An empty string typed at the model-name prompt does what
    dismissing the prompt does. [startChat] asks and returns, without a
    panel; [generateText] runs as it does on a dismissed prompt and hands
    nothing to [exec]. *)
Theorem empty_model_name_is_cancel (h : Host) :
  let typed := with_inputBox (Some []) h in
  let cancelled := with_inputBox None h in
  run typed startChat = run cancelled startChat
  /\ trace typed startChat
     = [ev (ShowInputBox (js "Enter the model name to chat with")
                         (js "e.g., llama3.2"))]
  /\ existsb is_panel (trace typed startChat) = false
  /\ spawned (trace typed startChat) = []
  /\ run typed generateText = run cancelled generateText
  /\ spawned (trace typed generateText) = []
  /\ (forall ed, activeTextEditor h = Some ed ->
                 truthy (selectedText ed) = true ->
                 trace typed generateText
                 = [ev ActiveTextEditor;
                    ev (ShowInputBox (js "Enter the model name")
                                     (js "e.g., llama3.2"))]).
Proof.
  cbv zeta.
  split; [reflexivity|]. split; [reflexivity|]. split; [reflexivity|].
  split; [reflexivity|].
  split.
  - unfold generateText. cbn.
    destruct (activeTextEditor h) as [ed|]; cbn; [|reflexivity].
    destruct (truthy (selectedText ed)); reflexivity.
  - split.
    + apply spawned_generateText_no_name. reflexivity.
    + intros ed HE HS. unfold trace, generateText. cbn.
      rewrite HE. cbn. rewrite HS. reflexivity.
Qed.

Lemma empty_model_name_is_cancel_witness :
  run (with_inputBox (Some []) Examples.desk) startChat
  = run (with_inputBox None Examples.desk) startChat
  /\ trace (with_inputBox (Some []) Examples.desk) generateText
     = [ev ActiveTextEditor;
        ev (ShowInputBox (js "Enter the model name") (js "e.g., llama3.2"))].
Proof.
  destruct (empty_model_name_is_cancel Examples.desk)
    as [S [_ [_ [_ [_ [_ G]]]]]].
  split; [exact S|].
  apply (G {| selection_end := Examples.origin; selectedText := js "Hi" |});
    reflexivity.
Defined.

(** ** The two call sites of [generate] *)

Lemma command_of_chat (h : Host) (modelName prompt : jsstring) :
  command_of h (chat_args modelName prompt)
  = (command_of h [js "generate"; modelName] ++ [SP]) ++ prompt.
Proof.
  unfold command_of, command_line, chat_args. cbn [join].
  repeat rewrite <- app_assoc. reflexivity.
Qed.

Lemma command_of_oneshot (h : Host) (modelName selected : jsstring) :
  command_of h (oneshot_args modelName selected)
  = (command_of h [js "generate"; modelName] ++ [SP])
      ++ [dquote] ++ selected ++ [dquote].
Proof.
  unfold command_of, command_line, oneshot_args. cbn [join].
  repeat rewrite <- app_assoc. reflexivity.
Qed.

Lemma quoted_differs (prompt : jsstring) :
  prompt <> [dquote] ++ prompt ++ [dquote].
Proof.
  intros E. apply (f_equal (@List.length N)) in E.
  rewrite !length_app in E. simpl in E. lia.
Qed.

(** C10. For the same model and prompt the chat callback and the one-shot
    generate hand [exec] different command lines: after a common prefix
    the chat has the prompt as it is, the one-shot has it between two
    double quote characters. *)
Theorem chat_and_oneshot_commands_differ
        (h : Host) (ed : Editor) (modelName : jsstring) :
  activeTextEditor h = Some ed ->
  inputBox h = Some modelName ->
  truthy (selectedText ed) = true ->
  truthy modelName = true ->
  let prompt := selectedText ed in
  let prefix := command_of h [js "generate"; modelName] ++ [SP] in
  spawned (trace h (onMessage modelName (sendMessageOf prompt)))
  = [prefix ++ prompt]
  /\ spawned (trace h generateText) = [prefix ++ [dquote] ++ prompt ++ [dquote]]
  /\ prefix ++ prompt <> prefix ++ [dquote] ++ prompt ++ [dquote].
Proof.
  intros HE HI HS HM. cbv zeta. split; [|split].
  - unfold trace. rewrite run_onMessage. cbn [fst].
    rewrite spawned_app, spawned_runPyOllamaCommand, command_of_chat.
    reflexivity.
  - rewrite (@run_generateText h ed modelName HE HI HS HM).
    rewrite !spawned_app, spawned_runPyOllamaCommand, command_of_oneshot.
    cbn [spawned flat_map projT2 ev app].
    destruct (result h _); reflexivity.
  - intros E. apply app_inv_head in E. exact (quoted_differs E).
Qed.

Lemma chat_and_oneshot_commands_differ_witness :
  activeTextEditor Examples.desk
  = Some {| selection_end := Examples.origin; selectedText := js "Hi" |}
  /\ inputBox Examples.desk = Some (js "llama3.2")
  /\ spawned (trace Examples.desk
                (onMessage (js "llama3.2") (sendMessageOf (js "Hi"))))
     = [js "python -m pyollama --model-dir ~/.ollama/models generate llama3.2 Hi"]
  /\ spawned (trace Examples.desk generateText)
     = [js "python -m pyollama --model-dir ~/.ollama/models generate llama3.2 "
          ++ [dquote] ++ js "Hi" ++ [dquote]].
Proof.
  split; [reflexivity|]. split; [reflexivity|].
  destruct (@chat_and_oneshot_commands_differ Examples.desk
              {| selection_end := Examples.origin; selectedText := js "Hi" |}
              (js "llama3.2") eq_refl eq_refl eq_refl eq_refl)
    as [C [G _]].
  split; [exact C | exact G].
Defined.

(** ** The turn sequence of an open session *)

Section Turns.

Import ChatSession.

Variable h : Host.

Lemma advance_onMessage (modelName prompt : jsstring) :
  posted (fst (advance h (onMessage modelName (sendMessageOf prompt)))) = []
  /\ replies_once h (snd (advance h (onMessage modelName (sendMessageOf prompt)))).
Proof.
  unfold onMessage, sendMessageOf, runPyOllamaCommand.
  change (jsstring_eqb _ _) with true. cbv iota. cbn.
  split; [reflexivity|]. split; [reflexivity|].
  intros r. cbn.
  destruct (settle _ r) as [[out err] | e]; cbn.
  - destruct (truthy err); cbn; (split; [reflexivity|]);
      eexists; (split; [reflexivity|]); reflexivity.
  - split; [reflexivity|]. eexists. split; reflexivity.
Qed.

Lemma userTurns_addMessage (t : jsstring) (u : bool) (c : list ChatView.Div) :
  ChatView.userTurns (ChatView.addMessage t u c)
  = (ChatView.userTurns c + (if u then 1 else 0))%nat.
Proof.
  unfold ChatView.userTurns, ChatView.addMessage.
  rewrite filter_app, length_app. destruct u; reflexivity.
Qed.

Lemma replyTurns_addMessage (t : jsstring) (u : bool) (c : list ChatView.Div) :
  ChatView.replyTurns (ChatView.addMessage t u c)
  = (ChatView.replyTurns c + (if u then 0 else 1))%nat.
Proof.
  unfold ChatView.replyTurns, ChatView.addMessage.
  rewrite filter_app, length_app. destruct u; reflexivity.
Qed.

Lemma onWindowMessage_reply (m : Message) (c : list ChatView.Div) :
  is_reply m = true ->
  ChatView.userTurns (ChatView.onWindowMessage m c) = ChatView.userTurns c
  /\ ChatView.replyTurns (ChatView.onWindowMessage m c)
     = S (ChatView.replyTurns c).
Proof.
  unfold is_reply, ChatView.onWindowMessage. intros R.
  destruct (jsstring_eqb (type m) (js "response")).
  - rewrite userTurns_addMessage, replyTurns_addMessage. lia.
  - simpl in R. rewrite R.
    rewrite userTurns_addMessage, replyTurns_addMessage. lia.
Qed.

Lemma remove_nth_length (A : Type) (l : list A) (i : nat) (x : A) :
  nth_error l i = Some x -> S (List.length (remove_nth i l)) = List.length l.
Proof.
  revert i. induction l as [|y l IH]; intros [|i] E; simpl in *;
    try discriminate; [reflexivity|].
  rewrite (IH i E). reflexivity.
Qed.

Lemma remove_nth_Forall (A : Type) (P : A -> Prop) (l : list A) (i : nat) :
  Forall P l -> Forall P (remove_nth i l).
Proof.
  intros F. revert i. induction F as [|y l Py F IH]; intros [|i]; simpl;
    auto using Forall.
Qed.

Lemma park_finished (p : Prog unit) : finished p = true -> park p = [].
Proof. unfold park. intros ->. reflexivity. Qed.

Lemma park_waiting (p : Prog unit) : finished p = false -> park p = [p].
Proof. unfold park. intros ->. reflexivity. Qed.

Lemma step_balanced (s : Session) (e : SessionEvent) :
  balanced h s -> balanced h (step h s e).
Proof.
  intros [U R I O]. destruct e as [value | i r |]; unfold step.
  - unfold ChatView.sendMessage.
    destruct (truthy (trim value)) eqn:T; cbn [fst snd];
      [|constructor; assumption].
    fold (sendMessageOf (trim value)).
    destruct (advance_onMessage (boundModel s) (trim value)) as [P G].
    set (a := advance h _) in *. clearbody a.
    constructor; cbn [container sent inflight outbox].
    + rewrite userTurns_addMessage, length_app. simpl. lia.
    + rewrite replyTurns_addMessage, P, app_nil_r, !length_app.
      rewrite (park_waiting _ (proj1 G)). simpl. lia.
    + rewrite (park_waiting _ (proj1 G)).
      apply Forall_app. split; [assumption|]. constructor; [exact G|constructor].
    + rewrite P, app_nil_r. assumption.
  - destruct (nth_error (inflight s) i) as [p|] eqn:N;
      [|constructor; assumption].
    assert (G : replies_once h p).
    { rewrite Forall_forall in I. apply I. eapply nth_error_In. exact N. }
    destruct G as [_ G]. destruct (G r) as [F [m [P M]]].
    constructor; simpl.
    + assumption.
    + rewrite (park_finished _ F), app_nil_r, P, length_app. simpl.
      pose proof (remove_nth_length _ _ N). lia.
    + rewrite (park_finished _ F), app_nil_r.
      apply remove_nth_Forall. assumption.
    + rewrite P. apply Forall_app. split; [assumption|].
      constructor; [exact M|constructor].
  - destruct (outbox s) as [|m rest] eqn:B; [constructor; rewrite ?B; assumption|].
    inversion O as [|m' rest' M O']; subst.
    destruct (onWindowMessage_reply m (container s) M) as [U' R'].
    constructor; simpl.
    + rewrite U'. assumption.
    + rewrite R'. simpl in R. lia.
    + assumption.
    + assumption.
Qed.

Lemma step_sent (s : Session) (e : SessionEvent) :
  List.length (sent (step h s e))
  = (List.length (sent s) + (if posts e then 1 else 0))%nat.
Proof.
  destruct e as [value | i r |]; simpl.
  - unfold ChatView.sendMessage.
    destruct (truthy (trim value)); simpl; [|lia].
    rewrite length_app. reflexivity.
  - destruct (nth_error (inflight s) i); simpl; lia.
  - destruct (outbox s); simpl; lia.
Qed.

Lemma play_balanced (es : list SessionEvent) (s : Session) :
  balanced h s ->
  balanced h (play h es s)
  /\ List.length (sent (play h es s)) = (List.length (sent s) + sends es)%nat.
Proof.
  revert s. induction es as [|e es IH]; intros s B.
  - split; [assumption | unfold sends; simpl; lia].
  - change (play h (e :: es) s) with (play h es (step h s e)).
    destruct (IH (step h s e) (step_balanced e B)) as [B' L].
    split; [exact B'|].
    rewrite L, step_sent. unfold sends. simpl.
    destruct (posts e); simpl; lia.
Qed.

Lemma open_balanced (modelName : jsstring) : balanced h (open modelName).
Proof. constructor; simpl; auto. Qed.

End Turns.

(** C3. The callback answers every [sendMessage] with exactly one message
    to the view, a response or an error. Hence in an open session, after
    any interleaving of sends, child completions of either kind and
    deliveries that leaves nothing awaited and nothing undelivered, the
    chat container holds as many user turns as messages were sent, and as
    many assistant or error turns. *)
Theorem chat_turns_balance
        (h : Host) (modelName : jsstring) (es : list ChatSession.SessionEvent) :
  (forall prompt : jsstring,
      exists m : Message,
        posted (trace h (onMessage modelName (sendMessageOf prompt))) = [m]
        /\ is_reply m = true)
  /\ (ChatSession.resolved (ChatSession.play h es (ChatSession.open modelName)) ->
      ChatView.userTurns
        (ChatSession.container (ChatSession.play h es (ChatSession.open modelName)))
      = ChatSession.sends es
      /\ ChatView.replyTurns
           (ChatSession.container (ChatSession.play h es (ChatSession.open modelName)))
         = ChatSession.sends es).
Proof.
  split.
  - intros prompt. unfold trace. rewrite run_onMessage. cbn [fst].
    rewrite posted_app, posted_runPyOllamaCommand.
    eexists. split; [reflexivity|].
    destruct (result h _); reflexivity.
  - intros [I O].
    destruct (@play_balanced h es _ (open_balanced h modelName)) as [[U R _ _] L].
    rewrite I, O in R. simpl in L, R. split; lia.
Qed.

Lemma chat_turns_balance_witness :
  ChatSession.resolved
    (ChatSession.play Examples.desk Examples.two_turns (ChatSession.open (js "llama3.2")))
  /\ ChatSession.sends Examples.two_turns = 2%nat
  /\ ChatView.userTurns
       (ChatSession.container
          (ChatSession.play Examples.desk Examples.two_turns
             (ChatSession.open (js "llama3.2"))))
     = ChatSession.sends Examples.two_turns
  /\ ChatView.replyTurns
       (ChatSession.container
          (ChatSession.play Examples.desk Examples.two_turns
             (ChatSession.open (js "llama3.2"))))
     = ChatSession.sends Examples.two_turns.
Proof.
  split; [split; reflexivity|]. split; [reflexivity|].
  apply (chat_turns_balance Examples.desk (js "llama3.2") Examples.two_turns).
  split; reflexivity.
Defined.

(** ** What the shell makes of the command line *)

Section Words.

Import Shell.












Lemma argv_in_words (home : option jsstring) (command name : jsstring)
      (args : list jsstring) :
  fits command = true ->
  words home command = Some (name :: args) ->
  runs_program name = true ->
  argv_in home command = Some (name :: args).
Proof. unfold argv_in. intros -> -> ->. reflexivity. Qed.




End Words.

(** C1. The prompt does not reach the runner as one unmodified argument.
    In a chat the prompt [hello world] is put on the command line as it
    is, and the shell starts the runner with [hello] and [world] as two
    arguments; that command line is the very one built for these two
    words given as separate arguments. The one-shot generate wraps the
    selection in double quotes without escaping it: the selection
    [say "hi there"] reaches the runner as [say hi] and [there]. *)
Theorem prompt_is_split_by_shell :
  map Shell.argv
      (spawned (trace Examples.opt_desk
                  (onMessage (js "llama3.2") (sendMessageOf (js "hello world")))))
  = [Some [js "python"; js "-m"; js "pyollama"; js "--model-dir";
           js "/opt/models"; js "generate"; js "llama3.2";
           js "hello"; js "world"]]
  /\ (forall (h : Host) (modelName : jsstring),
         command_of h (chat_args modelName (js "hello world"))
         = command_of h [js "generate"; modelName; js "hello"; js "world"])
  /\ selectedText_of Examples.quoting
     = js "say " ++ [dquote] ++ js "hi there" ++ [dquote]
  /\ map Shell.argv (spawned (trace Examples.quoting generateText))
     = [Some [js "python"; js "-m"; js "pyollama"; js "--model-dir";
              js "/opt/models"; js "generate"; js "llama3.2";
              js "say hi"; js "there"]].
Proof.
  split; [vm_compute; reflexivity|].
  split; [|split; vm_compute; reflexivity].
  intros h modelName. unfold command_of, command_line, chat_args.
  cbn [join]. repeat rewrite <- app_assoc. reflexivity.
Qed.




(** * Further properties of the extension *)

(** ** Strings *)

Lemma jsstring_eqb_eq (a b : jsstring) : jsstring_eqb a b = true <-> a = b.
Proof.
  revert b. induction a as [|x a IH]; intros [|y b]; simpl;
    try (split; [discriminate | discriminate]); [tauto|].
  rewrite andb_true_iff, N.eqb_eq, IH. split.
  - intros [-> ->]. reflexivity.
  - intros E. injection E. auto.
Qed.

Lemma jsstring_eqb_neq (a b : jsstring) : a <> b -> jsstring_eqb a b = false.
Proof.
  intros D. destruct (jsstring_eqb a b) eqn:E; [|reflexivity].
  apply jsstring_eqb_eq in E. contradiction.
Qed.

Lemma trimStart_split (s : jsstring) :
  exists ws, s = ws ++ trimStart s /\ forallb isWhiteSpace ws = true.
Proof.
  induction s as [|c s [ws [E W]]]; [exists []; auto|].
  simpl. destruct (isWhiteSpace c) eqn:C.
  - exists (c :: ws). simpl. rewrite C, W, <- E. auto.
  - exists []. auto.
Qed.

Lemma trimStart_head (s : jsstring) :
  match trimStart s with
  | [] => True
  | c :: _ => isWhiteSpace c = false
  end.
Proof.
  induction s as [|c s IH]; simpl; [exact I|].
  destruct (isWhiteSpace c) eqn:C; [exact IH | exact C].
Qed.

Lemma trimStart_fixed (s : jsstring) :
  match s with [] => True | c :: _ => isWhiteSpace c = false end ->
  trimStart s = s.
Proof. destruct s as [|c s]; simpl; [reflexivity|]. intros ->. reflexivity. Qed.

Lemma trimStart_idem (s : jsstring) : trimStart (trimStart s) = trimStart s.
Proof. apply trimStart_fixed, trimStart_head. Qed.

Lemma trimStart_nil (s : jsstring) :
  trimStart s = [] <-> forallb isWhiteSpace s = true.
Proof.
  induction s as [|c s IH]; simpl; [tauto|].
  destruct (isWhiteSpace c); simpl; [exact IH|].
  split; discriminate.
Qed.

Lemma forallb_rev (A : Type) (f : A -> bool) (l : list A) :
  forallb f (rev l) = forallb f l.
Proof.
  induction l as [|x l IH]; [reflexivity|].
  simpl. rewrite forallb_app, IH. simpl. rewrite andb_true_r, andb_comm.
  reflexivity.
Qed.

(** [trim] leaves nothing exactly when there was only white space. *)
Lemma trim_nil (s : jsstring) :
  trim s = [] <-> forallb isWhiteSpace s = true.
Proof.
  unfold trim, trimEnd. split.
  - intros E. apply (f_equal (@rev N)) in E. rewrite rev_involutive in E.
    simpl in E. apply trimStart_nil in E. rewrite forallb_rev in E.
    pose proof (trimStart_head s) as H.
    destruct (trimStart s) as [|c t] eqn:T.
    + apply trimStart_nil. exact T.
    + simpl in E. rewrite H in E. discriminate.
  - intros W. apply trimStart_nil in W. rewrite W. reflexivity.
Qed.

(** What [trim] returns starts with no white space. *)
Lemma trim_head (s : jsstring) : trimStart (trim s) = trim s.
Proof.
  unfold trim, trimEnd.
  destruct (trimStart_split (rev (trimStart s))) as [ws [E W]].
  apply trimStart_fixed.
  pose proof (trimStart_head s) as H.
  apply (f_equal (@rev N)) in E. rewrite rev_involutive, rev_app_distr in E.
  destruct (rev (trimStart (rev (trimStart s)))) as [|c r]; [exact I|].
  rewrite E in H. exact H.
Qed.

Lemma trim_idem (s : jsstring) : trim (trim s) = trim s.
Proof.
  unfold trim at 1. rewrite trim_head. unfold trim, trimEnd.
  rewrite rev_involutive, trimStart_idem. reflexivity.
Qed.

(** ** The gateway and the one-shot operations *)

Lemma settle_inl (c : jsstring) (r : ProcessRun) (out err : jsstring) :
  settle c r = inl (out, err) -> r = Exited 0 out err.
Proof.
  destruct r as [st o e | reason]; unfold settle; [|discriminate].
  destruct (maxBuffer <? byteLength o); [discriminate|].
  destruct (maxBuffer <? byteLength e); [discriminate|].
  destruct st; [|discriminate ..]. intros E. injection E as -> ->. reflexivity.
Qed.

Lemma result_runPyOllamaCommand (h : Host) (args : list jsstring) :
  result h (runPyOllamaCommand args)
  = match settle (command_of h args) (child h (command_of h args)) with
    | inl (out, _) => inl out
    | inr e => inr (Error (js "PyOllama command failed: " ++ message e))
    end.
Proof.
  unfold result. rewrite run_runPyOllamaCommand. cbv zeta.
  destruct (settle _ _) as [[out err] | e]; reflexivity.
Qed.

Lemma result_rejected (h : Host) (args : list jsstring) (e : JsError) :
  settle (command_of h args) (child h (command_of h args)) = inr e ->
  result h (runPyOllamaCommand args)
  = inr (Error (js "PyOllama command failed: " ++ message e)).
Proof. intros E. rewrite result_runPyOllamaCommand, E. reflexivity. Qed.

(** X1. Every call of [runPyOllamaCommand] reads the two settings anew
    and then hands [exec] one command line: the configured interpreter
    path, or [python] when none is configured, the fixed words, the
    configured model directory, or [~/.ollama/models], and the arguments
    separated by single spaces. *)
Theorem gateway_command_from_settings (h : Host) (args : list jsstring) :
  spawned (trace h (runPyOllamaCommand args))
  = [setting_or h (js "pythonPath") (js "python")
       ++ js " -m pyollama --model-dir "
       ++ setting_or h (js "modelDir") (js "~/.ollama/models")
       ++ js " " ++ join (js " ") args]
  /\ firstn 3 (trace h (runPyOllamaCommand args))
     = [ev (ConfigGet (js "pyollama") (js "pythonPath"));
        ev (ConfigGet (js "pyollama") (js "modelDir"));
        ev (Spawn (command_of h args))].
Proof.
  split.
  - rewrite spawned_runPyOllamaCommand. reflexivity.
  - unfold trace. rewrite run_runPyOllamaCommand. cbv zeta.
    destruct (settle _ _) as [[out err] | e]; reflexivity.
Qed.

Lemma trace_listModels (h : Host) :
  trace h listModels
  = trace h (runPyOllamaCommand [js "list"])
      ++ [match result h (runPyOllamaCommand [js "list"]) with
          | inl output =>
              ev (ShowInformationMessage (js "Models:" ++ [LF] ++ output))
          | inr error =>
              ev (ShowErrorMessage (js "Failed to list models: " ++ message error))
          end].
Proof.
  unfold trace, listModels. rewrite run_bind. cbn [fst]. unfold result.
  destruct (snd (run h (runPyOllamaCommand _))); reflexivity.
Qed.

Lemma spawned_listModels (h : Host) :
  spawned (trace h listModels) = [command_of h [js "list"]].
Proof.
  rewrite trace_listModels, spawned_app, spawned_runPyOllamaCommand.
  destruct (result h _); reflexivity.
Qed.

(** X2. [listModels] hands [exec] the one command line that ends in
    [list] and shows exactly one notice after the gateway call. When the
    child exits with status zero and neither stream has more bytes than
    [exec] buffers, it is the information [Models:], a newline and the
    standard output as captured, untrimmed. Whenever [exec] rejects, as
    it does for a child that fails, it is the error
    [Failed to list models: PyOllama command failed: ] followed by the
    message of that rejection. *)
Theorem listModels_one_notice (h : Host) :
  spawned (trace h listModels) = [command_of h [js "list"]]
  /\ (forall out err,
         child h (command_of h [js "list"]) = Exited 0 out err ->
         within_buffer out err = true ->
         trace h listModels
         = trace h (runPyOllamaCommand [js "list"])
             ++ [ev (ShowInformationMessage (js "Models:" ++ [LF] ++ out))])
  /\ (forall e : JsError,
         settle (command_of h [js "list"]) (child h (command_of h [js "list"]))
         = inr e ->
         trace h listModels
         = trace h (runPyOllamaCommand [js "list"])
             ++ [ev (ShowErrorMessage
                       (js "Failed to list models: "
                           ++ js "PyOllama command failed: " ++ message e))])
  /\ (failed (child h (command_of h [js "list"])) = true ->
      exists e : JsError,
        settle (command_of h [js "list"]) (child h (command_of h [js "list"]))
        = inr e).
Proof.
  split; [apply spawned_listModels|split; [|split]].
  - intros out err E W.
    rewrite trace_listModels, (result_exit0 h _ E W). reflexivity.
  - intros e E. rewrite trace_listModels, (result_rejected h _ E). reflexivity.
  - intros F. apply settle_failed. exact F.
Qed.

Lemma listModels_one_notice_witness :
  trace Examples.desk listModels
  = trace Examples.desk (runPyOllamaCommand [js "list"])
      ++ [ev (ShowInformationMessage (js "Models:" ++ [LF] ++ Examples.hello_out))]
  /\ trace Examples.broken listModels
     = trace Examples.broken (runPyOllamaCommand [js "list"])
         ++ [ev (ShowErrorMessage
                   (js "Failed to list models: PyOllama command failed: "
                       ++ js "Command failed: "
                       ++ js "python -m pyollama --model-dir ~/.ollama/models list"
                       ++ [LF] ++ js "No such model"))].
Proof.
  split.
  - destruct (listModels_one_notice Examples.desk) as [_ [S _]].
    apply (S Examples.hello_out (js "warning: slow")); reflexivity.
  - destruct (listModels_one_notice Examples.broken) as [_ [_ [F _]]].
    apply (F (Error (js "Command failed: "
                       ++ js "python -m pyollama --model-dir ~/.ollama/models list"
                       ++ [LF] ++ js "No such model"))).
    reflexivity.
Defined.

(** X3. Without an active editor [generateText] shows
    [No active editor found] and does nothing else: no input box, no
    command line for [exec], no edit. *)
Theorem generateText_no_editor (h : Host) :
  activeTextEditor h = None ->
  trace h generateText
  = [ev ActiveTextEditor; ev (ShowErrorMessage (js "No active editor found"))].
Proof.
  intros HE. unfold trace, generateText. cbn. rewrite HE. reflexivity.
Qed.

Lemma generateText_no_editor_witness :
  activeTextEditor (with_editor None Examples.desk) = None
  /\ trace (with_editor None Examples.desk) generateText
     = [ev ActiveTextEditor; ev (ShowErrorMessage (js "No active editor found"))].
Proof.
  split; [reflexivity|].
  apply (generateText_no_editor (with_editor None Examples.desk)). reflexivity.
Defined.

(** X4. Whenever [exec] rejects in [generateText], as it does for a
    child that fails, the document is left as it is and the last thing
    done is the error notice
    [Generation failed: PyOllama command failed: ] followed by the message
    of that rejection. *)
Theorem generateText_failure_notice
        (h : Host) (ed : Editor) (modelName : jsstring) (e : JsError) :
  activeTextEditor h = Some ed ->
  inputBox h = Some modelName ->
  truthy (selectedText ed) = true ->
  truthy modelName = true ->
  settle (command_of h (oneshot_args modelName (selectedText ed)))
         (child h (command_of h (oneshot_args modelName (selectedText ed))))
  = inr e ->
  inserted (trace h generateText) = []
  /\ trace h generateText
     = [ev ActiveTextEditor;
        ev (ShowInputBox (js "Enter the model name") (js "e.g., llama3.2"))]
         ++ trace h (runPyOllamaCommand (oneshot_args modelName (selectedText ed)))
         ++ [ev (ShowErrorMessage
                   (js "Generation failed: "
                       ++ js "PyOllama command failed: " ++ message e))].
Proof.
  intros HE HI HS HM E.
  rewrite (@run_generateText h ed modelName HE HI HS HM), (result_rejected h _ E).
  split; [|reflexivity].
  rewrite !inserted_app, inserted_runPyOllamaCommand. reflexivity.
Qed.

Lemma generateText_failure_notice_witness :
  failed (child Examples.broken
            (command_of Examples.broken (oneshot_args (js "llama3.2") (js "Hi"))))
  = true
  /\ inserted (trace Examples.broken generateText) = []
  /\ trace Examples.broken generateText
     = [ev ActiveTextEditor;
        ev (ShowInputBox (js "Enter the model name") (js "e.g., llama3.2"))]
         ++ trace Examples.broken
              (runPyOllamaCommand (oneshot_args (js "llama3.2") (js "Hi")))
         ++ [ev (ShowErrorMessage
                   (js "Generation failed: PyOllama command failed: "
                       ++ js "Command failed: "
                       ++ command_of Examples.broken
                            (oneshot_args (js "llama3.2") (js "Hi"))
                       ++ [LF] ++ js "No such model"))].
Proof.
  split; [reflexivity|].
  apply (@generateText_failure_notice Examples.broken
           {| selection_end := Examples.origin; selectedText := js "Hi" |}
           (js "llama3.2")
           (Error (js "Command failed: "
                      ++ command_of Examples.broken
                           (oneshot_args (js "llama3.2") (js "Hi"))
                      ++ [LF] ++ js "No such model")));
    reflexivity.
Defined.

Lemma posted_generateText (h : Host) : posted (trace h generateText) = [].
Proof.
  unfold trace, generateText. cbn.
  destruct (activeTextEditor h) as [ed|]; cbn; [|reflexivity].
  destruct (truthy (selectedText ed)); cbn; [|reflexivity].
  destruct (inputBox h) as [n|]; cbn; [|reflexivity].
  destruct (truthy n); cbn; [|reflexivity].
  rewrite run_bind. cbn [fst]. rewrite posted_app.
  change (fst (run h (runPyOllamaCommand ?a))) with (trace h (runPyOllamaCommand a)).
  rewrite posted_runPyOllamaCommand.
  destruct (snd (run h (runPyOllamaCommand _))); reflexivity.
Qed.

Lemma spawned_generateText_le (h : Host) :
  (List.length (spawned (trace h generateText)) <= 1)%nat.
Proof.
  destruct (activeTextEditor h) as [ed|] eqn:HE.
  - destruct (truthy (selectedText ed)) eqn:HS.
    + destruct (inputBox h) as [n|] eqn:HI.
      * destruct (truthy n) eqn:HM.
        -- rewrite (@run_generateText h ed n HE HI HS HM).
           rewrite !spawned_app, spawned_runPyOllamaCommand.
           destruct (result h _); simpl; lia.
        -- rewrite (spawned_generateText_no_name h); [simpl; lia|].
           rewrite HI, HM. reflexivity.
      * rewrite (spawned_generateText_no_name h); [simpl; lia|].
        rewrite HI. reflexivity.
    + unfold trace, generateText. cbn. rewrite HE. cbn. rewrite HS. simpl. lia.
  - unfold trace, generateText. cbn. rewrite HE. simpl. lia.
Qed.

(** X5. Whatever the host, one run of [generateText] hands [exec] at most
    one command line, posts nothing to a webview, and edits the document
    only after a child that exited with status zero: then it makes one
    insertion, at the end of the selection. *)
Theorem generateText_edits_only_on_success (h : Host) :
  (List.length (spawned (trace h generateText)) <= 1)%nat
  /\ posted (trace h generateText) = []
  /\ (inserted (trace h generateText) = []
      \/ exists ed c out err,
          activeTextEditor h = Some ed
          /\ spawned (trace h generateText) = [c]
          /\ child h c = Exited 0 out err
          /\ inserted (trace h generateText)
             = [(selection_end ed, [LF; LF] ++ trim out)]).
Proof.
  split; [apply spawned_generateText_le|split; [apply posted_generateText|]].
  destruct (activeTextEditor h) as [ed|] eqn:HE;
    [|left; unfold trace, generateText; cbn; rewrite HE; reflexivity].
  destruct (truthy (selectedText ed)) eqn:HS;
      [|left; unfold trace, generateText; cbn; rewrite HE; cbn; rewrite HS;
        reflexivity].
  destruct (inputBox h) as [n|] eqn:HI;
    [|left; unfold trace, generateText; cbn; rewrite HE; cbn; rewrite HS; cbn;
      rewrite HI; reflexivity].
  destruct (truthy n) eqn:HM;
    [|left; unfold trace, generateText; cbn; rewrite HE; cbn; rewrite HS; cbn;
      rewrite HI; cbn; rewrite HM; reflexivity].
  rewrite (@run_generateText h ed n HE HI HS HM).
  rewrite !spawned_app, !inserted_app, spawned_runPyOllamaCommand,
    inserted_runPyOllamaCommand, result_runPyOllamaCommand.
  destruct (settle _ _) as [[out err] | e] eqn:S.
  - right. exists ed, (command_of h (oneshot_args n (selectedText ed))), out, err.
    apply settle_inl in S. auto.
  - left. reflexivity.
Qed.

(** X6. Given a model name that is not empty, [startChat] creates the
    panel titled [PyOllama Chat - ] and the name, gives it the page for
    that name and registers the callback bound to it; it hands [exec]
    nothing and posts nothing until a message arrives. *)
Theorem startChat_opens_panel (h : Host) (modelName : jsstring) :
  inputBox h = Some modelName ->
  truthy modelName = true ->
  trace h startChat
  = [ev (ShowInputBox (js "Enter the model name to chat with")
                      (js "e.g., llama3.2"));
     ev (CreateWebviewPanel (js "pyollamaChat")
                            (js "PyOllama Chat - " ++ modelName));
     ev (SetWebviewHtml modelName);
     ev (OnDidReceiveMessage modelName)]
  /\ spawned (trace h startChat) = []
  /\ posted (trace h startChat) = [].
Proof.
  intros HI HM.
  assert (T : trace h startChat
              = [ev (ShowInputBox (js "Enter the model name to chat with")
                                  (js "e.g., llama3.2"));
                 ev (CreateWebviewPanel (js "pyollamaChat")
                                        (js "PyOllama Chat - " ++ modelName));
                 ev (SetWebviewHtml modelName);
                 ev (OnDidReceiveMessage modelName)]).
  { unfold trace, startChat. cbn. rewrite HI. cbn. rewrite HM. reflexivity. }
  rewrite T. repeat split.
Qed.

Lemma startChat_opens_panel_witness :
  inputBox Examples.desk = Some (js "llama3.2")
  /\ trace Examples.desk startChat
     = [ev (ShowInputBox (js "Enter the model name to chat with")
                         (js "e.g., llama3.2"));
        ev (CreateWebviewPanel (js "pyollamaChat") (js "PyOllama Chat - llama3.2"));
        ev (SetWebviewHtml (js "llama3.2"));
        ev (OnDidReceiveMessage (js "llama3.2"))].
Proof.
  split; [reflexivity|].
  apply (@startChat_opens_panel Examples.desk (js "llama3.2")); reflexivity.
Defined.

(** X7. The chat callback does nothing at all for a message whose type is
    not [sendMessage]: no setting is read, nothing is spawned, nothing is
    posted back. *)
Theorem onMessage_ignores_other_types (h : Host) (modelName : jsstring) (m : Message) :
  type m <> js "sendMessage" ->
  run h (onMessage modelName m) = ([], tt).
Proof.
  intros D. unfold onMessage. rewrite (jsstring_eqb_neq D). reflexivity.
Qed.

Lemma onMessage_ignores_other_types_witness :
  run Examples.desk
      (onMessage (js "llama3.2") {| type := js "response"; text := js "Hi" |})
  = ([], tt).
Proof.
  apply (@onMessage_ignores_other_types Examples.desk (js "llama3.2")
           {| type := js "response"; text := js "Hi" |}).
  simpl. discriminate.
Defined.

Lemma spawned_startChat (h : Host) : spawned (trace h startChat) = [].
Proof.
  unfold trace, startChat. cbn.
  destruct (inputBox h) as [n|]; cbn; [|reflexivity].
  destruct (truthy n); reflexivity.
Qed.

(** X8. [activate] registers three commands under distinct identifiers.
    Whichever is invoked, on whatever host, it hands [exec] at most one
    command line: [pyollama.chat] none, [pyollama.listModels] exactly
    one. An identifier that was not registered has no callback. *)
Theorem registered_commands_spawn_at_most_once :
  NoDup (map fst commands)
  /\ (forall (h : Host) (id : jsstring) (p : Prog unit),
         handler_of id commands = Some p ->
         (List.length (spawned (trace h p)) <= 1)%nat)
  /\ (forall h : Host,
         option_map (fun p => spawned (trace h p))
                    (handler_of (js "pyollama.chat") commands) = Some []
         /\ option_map (fun p => spawned (trace h p))
                       (handler_of (js "pyollama.listModels") commands)
            = Some [command_of h [js "list"]])
  /\ (forall id : jsstring,
         ~ In id (map fst commands) -> handler_of id commands = None).
Proof.
  split; [|split; [|split]].
  - repeat constructor; simpl; intuition discriminate.
  - intros h id p. unfold commands. cbn [handler_of].
    destruct (jsstring_eqb id _).
    { intros E. injection E as <-. rewrite spawned_startChat. simpl. lia. }
    destruct (jsstring_eqb id _).
    { intros E. injection E as <-.
      apply spawned_generateText_le. }
    destruct (jsstring_eqb id _); [|discriminate].
    intros E. injection E as <-.
    rewrite spawned_listModels. simpl. lia.
  - intros h. split.
    + change (handler_of (js "pyollama.chat") commands) with (Some startChat).
      cbn [option_map]. rewrite spawned_startChat. reflexivity.
    + change (handler_of (js "pyollama.listModels") commands)
        with (Some listModels).
      cbn [option_map]. rewrite spawned_listModels. reflexivity.
  - intros id N. unfold commands in *. cbn [handler_of map fst] in *.
    destruct (jsstring_eqb id _) eqn:E1.
    { apply jsstring_eqb_eq in E1. exfalso. apply N. simpl. auto. }
    destruct (jsstring_eqb id (js "pyollama.generate")) eqn:E2.
    { apply jsstring_eqb_eq in E2. exfalso. apply N. simpl. auto. }
    destruct (jsstring_eqb id (js "pyollama.listModels")) eqn:E3.
    { apply jsstring_eqb_eq in E3. exfalso. apply N. simpl. auto. }
    reflexivity.
Qed.

Lemma registered_commands_spawn_at_most_once_witness :
  handler_of (js "pyollama.generate") commands = Some generateText
  /\ (List.length (spawned (trace Examples.desk generateText)) <= 1)%nat.
Proof.
  split; [reflexivity|].
  destruct registered_commands_spawn_at_most_once as [_ [B _]].
  apply (B Examples.desk (js "pyollama.generate") generateText). reflexivity.
Defined.

(** ** The page script *)

(** X9. Pressing Send posts nothing and leaves the conversation as it is
    exactly when the input field holds only white space (or nothing);
    otherwise one user turn with the trimmed text is appended and one
    [sendMessage] with that same text is posted. *)
Theorem blank_input_posts_nothing (value : jsstring) (c : list ChatView.Div) :
  (forallb isWhiteSpace value = true ->
   ChatView.sendMessage value c = (c, None))
  /\ (forallb isWhiteSpace value = false ->
      ChatView.sendMessage value c
      = (c ++ [user_turn value], Some (sendMessageOf (trim value)))).
Proof.
  unfold ChatView.sendMessage, user_turn. split; intros W.
  - apply trim_nil in W. rewrite W. reflexivity.
  - destruct (trim value) as [|x t] eqn:T; [|reflexivity].
    apply trim_nil in T. rewrite T in W. discriminate.
Qed.

Lemma blank_input_posts_nothing_witness :
  ChatView.sendMessage [SP; 9; LF] [user_turn (js "hi")]
  = ([user_turn (js "hi")], None)
  /\ ChatView.sendMessage (js " yo ") [user_turn (js "hi")]
     = ([user_turn (js "hi")] ++ [user_turn (js " yo ")],
        Some (sendMessageOf (js "yo"))).
Proof.
  split.
  - apply (blank_input_posts_nothing [SP; 9; LF] [user_turn (js "hi")]).
    reflexivity.
  - apply (blank_input_posts_nothing (js " yo ") [user_turn (js "hi")]).
    reflexivity.
Defined.

(** X10. The page shows a [response] as one assistant turn with the text
    as it came, an [error] as one assistant turn with [Error: ] in front
    of the text, and ignores a message of any other type. *)
Theorem page_shows_replies_only (m : Message) (c : list ChatView.Div) :
  (type m = js "response" ->
   ChatView.onWindowMessage m c
   = c ++ [{| ChatView.isUser := false; ChatView.textContent := text m |}])
  /\ (type m = js "error" ->
      ChatView.onWindowMessage m c
      = c ++ [{| ChatView.isUser := false;
                 ChatView.textContent := js "Error: " ++ text m |}])
  /\ (type m <> js "response" -> type m <> js "error" ->
      ChatView.onWindowMessage m c = c).
Proof.
  unfold ChatView.onWindowMessage. split; [|split].
  - intros ->. reflexivity.
  - intros ->. reflexivity.
  - intros R E. rewrite (jsstring_eqb_neq R), (jsstring_eqb_neq E). reflexivity.
Qed.

Lemma page_shows_replies_only_witness :
  ChatView.onWindowMessage {| type := js "error"; text := js "boom" |} []
  = [{| ChatView.isUser := false; ChatView.textContent := js "Error: boom" |}]
  /\ ChatView.onWindowMessage (sendMessageOf (js "Hi")) [] = [].
Proof.
  destruct (page_shows_replies_only {| type := js "error"; text := js "boom" |} [])
    as [_ [E _]].
  destruct (page_shows_replies_only (sendMessageOf (js "Hi")) []) as [_ [_ O]].
  split.
  - apply E. reflexivity.
  - apply O; simpl; discriminate.
Defined.

(** ** More on the open session *)

Section Exchanges.

Import ChatSession.

Variable h : Host.

Lemma waiting_posts_nothing (modelName prompt : jsstring) :
  posted (fst (advance h (onMessage modelName (sendMessageOf prompt)))) = []
  /\ finished (waiting h modelName prompt) = false.
Proof.
  destruct (advance_onMessage h modelName prompt) as [P [F _]].
  split; [exact P | exact F].
Qed.

Lemma waiting_resume (modelName prompt : jsstring) (r : ProcessRun) :
  finished (snd (advance h (resume r (waiting h modelName prompt)))) = true
  /\ posted (fst (advance h (resume r (waiting h modelName prompt))))
     = [reply_message h modelName prompt r].
Proof.
  unfold waiting, reply_message, onMessage, sendMessageOf, runPyOllamaCommand,
    command_of, pythonPath_of, modelDir_of, result, chat_args.
  change (jsstring_eqb _ _) with true. cbv iota. cbn.
  destruct (settle _ r) as [[out err] | e]; cbn.
  - destruct (truthy err); cbn; split; reflexivity.
  - split; reflexivity.
Qed.

Lemma onWindowMessage_reply_message
      (modelName prompt : jsstring) (r : ProcessRun) (c : list ChatView.Div) :
  ChatView.onWindowMessage (reply_message h modelName prompt r) c
  = c ++ [reply_turn h modelName prompt r].
Proof.
  unfold reply_message, reply_turn.
  destruct (settle _ r) as [[out err] | e]; reflexivity.
Qed.

Lemma step_Send (s : Session) (value : jsstring) :
  forallb isWhiteSpace value = false ->
  step h s (Send value)
  = {| boundModel := boundModel s;
       container := container s ++ [user_turn value];
       sent := sent s ++ [sendMessageOf (trim value)];
       inflight := inflight s ++ [waiting h (boundModel s) (trim value)];
       outbox := outbox s |}.
Proof.
  intros W. unfold step, ChatView.sendMessage.
  destruct (truthy (trim value)) eqn:T.
  - cbn [fst snd]. fold (sendMessageOf (trim value)).
    destruct (waiting_posts_nothing (boundModel s) (trim value)) as [P F].
    rewrite P, app_nil_r. fold (waiting h (boundModel s) (trim value)).
    unfold park. rewrite F. reflexivity.
  - destruct (trim value) eqn:E; [|discriminate].
    apply trim_nil in E. rewrite E in W. discriminate.
Qed.

Lemma step_Completes
      (s : Session) (i : nat) (r : ProcessRun) (modelName prompt : jsstring) :
  nth_error (inflight s) i = Some (waiting h modelName prompt) ->
  step h s (Completes i r)
  = {| boundModel := boundModel s;
       container := container s;
       sent := sent s;
       inflight := remove_nth i (inflight s);
       outbox := outbox s ++ [reply_message h modelName prompt r] |}.
Proof.
  intros N. unfold step. rewrite N.
  destruct (waiting_resume modelName prompt r) as [F P].
  rewrite P. unfold park. rewrite F, app_nil_r. reflexivity.
Qed.

Lemma step_Delivers
      (s : Session) (modelName prompt : jsstring) (r : ProcessRun)
      (rest : list Message) :
  outbox s = reply_message h modelName prompt r :: rest ->
  step h s Delivers
  = {| boundModel := boundModel s;
       container := container s ++ [reply_turn h modelName prompt r];
       sent := sent s;
       inflight := inflight s;
       outbox := rest |}.
Proof.
  intros O. unfold step. rewrite O, onWindowMessage_reply_message. reflexivity.
Qed.

Lemma step_extends (s : Session) (e : SessionEvent) :
  (exists turns, container (step h s e) = container s ++ turns)
  /\ (exists msgs, sent (step h s e) = sent s ++ msgs)
  /\ boundModel (step h s e) = boundModel s.
Proof.
  destruct e as [value | i r |]; unfold step.
  - unfold ChatView.sendMessage, ChatView.addMessage.
    destruct (truthy (trim value)); cbn [fst snd container sent boundModel].
    + repeat split; eexists; reflexivity.
    + repeat split; exists []; rewrite app_nil_r; reflexivity.
  - destruct (nth_error (inflight s) i); cbn [container sent boundModel];
      repeat split; exists []; rewrite app_nil_r; reflexivity.
  - destruct (outbox s) as [|m rest]; cbn [container sent boundModel].
    + repeat split; exists []; rewrite app_nil_r; reflexivity.
    + split; [|split; [exists []; rewrite app_nil_r|]; reflexivity].
      unfold ChatView.onWindowMessage, ChatView.addMessage.
      destruct (jsstring_eqb (type m) (js "response")); [eexists; reflexivity|].
      destruct (jsstring_eqb (type m) (js "error")); [eexists; reflexivity|].
      exists []. rewrite app_nil_r. reflexivity.
Qed.

Lemma step_well_sent (s : Session) (e : SessionEvent) :
  Forall well_sent (sent s) -> Forall well_sent (sent (step h s e)).
Proof.
  intros F. destruct e as [value | i r |]; unfold step.
  - unfold ChatView.sendMessage.
    destruct (truthy (trim value)) eqn:T; cbn [fst snd sent]; [|exact F].
    apply Forall_app. split; [exact F|].
    constructor; [|constructor].
    unfold well_sent. cbn [type text]. rewrite trim_idem. auto.
  - destruct (nth_error (inflight s) i); exact F.
  - destruct (outbox s); exact F.
Qed.

End Exchanges.

(** X11. In an open session, whatever has happened so far, every message
    the page has posted to the extension is a [sendMessage] whose text is
    not empty and has no white space at either end: the chat never asks
    the runner for an empty or untrimmed prompt. *)
Theorem sent_messages_are_trimmed
        (h : Host) (modelName : jsstring) (es : list ChatSession.SessionEvent) :
  Forall well_sent
         (ChatSession.sent (ChatSession.play h es (ChatSession.open modelName))).
Proof.
  assert (G : forall s, Forall well_sent (ChatSession.sent s) ->
                        Forall well_sent (ChatSession.sent (ChatSession.play h es s))).
  { induction es as [|e es IH]; intros s F; [exact F|].
    change (ChatSession.play h (e :: es) s)
      with (ChatSession.play h es (ChatSession.step h s e)).
    apply IH. apply step_well_sent. exact F. }
  apply G. constructor.
Qed.

(** X12. The conversation is append-only: whatever events follow, the
    turns shown and the messages sent so far stay as a prefix of what is
    there afterwards, and the session stays bound to its model. *)
Theorem conversation_is_append_only
        (h : Host) (es : list ChatSession.SessionEvent) (s : ChatSession.Session) :
  (exists turns,
      ChatSession.container (ChatSession.play h es s)
      = ChatSession.container s ++ turns)
  /\ (exists msgs,
         ChatSession.sent (ChatSession.play h es s) = ChatSession.sent s ++ msgs)
  /\ ChatSession.boundModel (ChatSession.play h es s) = ChatSession.boundModel s.
Proof.
  revert s. induction es as [|e es IH]; intros s.
  - repeat split; exists []; rewrite app_nil_r; reflexivity.
  - change (ChatSession.play h (e :: es) s)
      with (ChatSession.play h es (ChatSession.step h s e)).
    destruct (IH (ChatSession.step h s e)) as [[t1 C1] [[m1 S1] B1]].
    destruct (step_extends h s e) as [[t0 C0] [[m0 S0] B0]].
    rewrite C1, S1, B1, C0, S0, B0. repeat split.
    + exists (t0 ++ t1). rewrite app_assoc. reflexivity.
    + exists (m0 ++ m1). rewrite app_assoc. reflexivity.
Qed.

(** X13. At every moment of an open session, resolved or not, the user
    turns shown are as many as the messages sent, and each message sent
    has exactly one reply that is either shown, posted and not yet
    delivered, or still awaited; so replies never outnumber messages. *)
Theorem replies_accounted_at_all_times
        (h : Host) (modelName : jsstring) (es : list ChatSession.SessionEvent) :
  let s := ChatSession.play h es (ChatSession.open modelName) in
  ChatView.userTurns (ChatSession.container s) = ChatSession.sends es
  /\ (ChatView.replyTurns (ChatSession.container s)
      + List.length (ChatSession.outbox s)
      + List.length (ChatSession.inflight s))%nat = ChatSession.sends es
  /\ (ChatView.replyTurns (ChatSession.container s)
      <= ChatView.userTurns (ChatSession.container s))%nat.
Proof.
  cbv zeta.
  destruct (@play_balanced h es _ (open_balanced h modelName)) as [[U R _ _] L].
  simpl in L. lia.
Qed.

(** X14. One exchange, start to end: after the user sends a text that is
    not blank, its child ends and the reply is delivered, the page shows
    the user turn with the trimmed text followed by one assistant turn,
    and nothing is left pending. The assistant turn is the trimmed
    standard output when the child exited with status zero and neither
    stream had more bytes than [exec] buffers; whenever [exec] rejects it
    is [Error: PyOllama command failed: ] followed by the message of that
    rejection. *)
Theorem one_exchange_transcript
        (h : Host) (modelName value : jsstring) (r : ProcessRun) :
  forallb isWhiteSpace value = false ->
  ChatSession.play h
    [ChatSession.Send value; ChatSession.Completes 0 r; ChatSession.Delivers]
    (ChatSession.open modelName)
  = {| ChatSession.boundModel := modelName;
       ChatSession.container :=
         [user_turn value; reply_turn h modelName (trim value) r];
       ChatSession.sent := [sendMessageOf (trim value)];
       ChatSession.inflight := [];
       ChatSession.outbox := [] |}
  /\ (forall out err,
         r = Exited 0 out err ->
         within_buffer out err = true ->
         reply_turn h modelName (trim value) r
         = {| ChatView.isUser := false; ChatView.textContent := trim out |})
  /\ (forall e : JsError,
         settle (command_of h (chat_args modelName (trim value))) r = inr e ->
         reply_turn h modelName (trim value) r
         = {| ChatView.isUser := false;
              ChatView.textContent :=
                js "Error: " ++ js "PyOllama command failed: " ++ message e |}).
Proof.
  intros W. split; [|split].
  - unfold ChatSession.play. cbn [fold_left].
    rewrite (step_Send h _ value W).
    rewrite (@step_Completes h _ 0 r modelName (trim value)) by reflexivity.
    rewrite (@step_Delivers h _ modelName (trim value) r []) by reflexivity.
    reflexivity.
  - intros out err -> B. unfold reply_turn.
    rewrite (@settle_exit0 _ _ _ B). reflexivity.
  - intros e E. unfold reply_turn. rewrite E. reflexivity.
Qed.

Lemma one_exchange_transcript_witness :
  ChatSession.container
    (ChatSession.play Examples.desk
       [ChatSession.Send (js " yo "); ChatSession.Completes 0 (Exited 0 (js "fine ") []);
        ChatSession.Delivers]
       (ChatSession.open (js "llama3.2")))
  = [{| ChatView.isUser := true; ChatView.textContent := js "yo" |};
     {| ChatView.isUser := false; ChatView.textContent := js "fine" |}].
Proof.
  destruct (@one_exchange_transcript Examples.desk (js "llama3.2") (js " yo ")
              (Exited 0 (js "fine ") []) eq_refl) as [P [S _]].
  rewrite P. cbn [ChatSession.container].
  rewrite (S (js "fine ") [] eq_refl eq_refl). reflexivity.
Defined.

(** X15. Requests are not queued: when two messages are sent and the
    child of the second ends first, the reply to the second is shown
    before the reply to the first. *)
Theorem replies_come_in_completion_order
        (h : Host) (modelName v1 v2 : jsstring) (r1 r2 : ProcessRun) :
  forallb isWhiteSpace v1 = false ->
  forallb isWhiteSpace v2 = false ->
  ChatSession.container
    (ChatSession.play h
       [ChatSession.Send v1; ChatSession.Send v2;
        ChatSession.Completes 1 r2; ChatSession.Completes 0 r1;
        ChatSession.Delivers; ChatSession.Delivers]
       (ChatSession.open modelName))
  = [user_turn v1; user_turn v2;
     reply_turn h modelName (trim v2) r2;
     reply_turn h modelName (trim v1) r1].
Proof.
  intros W1 W2.
  change (ChatSession.play h _ (ChatSession.open modelName))
    with (ChatSession.step h
            (ChatSession.play h
               [ChatSession.Send v1; ChatSession.Send v2;
                ChatSession.Completes 1 r2; ChatSession.Completes 0 r1;
                ChatSession.Delivers]
               (ChatSession.open modelName))
            ChatSession.Delivers).
  unfold ChatSession.play. cbn [fold_left].
  rewrite (step_Send h _ v1 W1).
  rewrite (step_Send h _ v2 W2).
  rewrite (@step_Completes h _ 1 r2 modelName (trim v2)) by reflexivity.
  rewrite (@step_Completes h _ 0 r1 modelName (trim v1)) by reflexivity.
  rewrite (@step_Delivers h {| ChatSession.boundModel := _ |}
             modelName (trim v2) r2
             [reply_message h modelName (trim v1) r1]) by reflexivity.
  rewrite (@step_Delivers h _ modelName (trim v1) r1 []) by reflexivity.
  reflexivity.
Qed.

Lemma replies_come_in_completion_order_witness :
  ChatSession.container
    (ChatSession.play Examples.desk Examples.two_turns (ChatSession.open (js "llama3.2")))
  = [{| ChatView.isUser := true; ChatView.textContent := js "hi" |};
     {| ChatView.isUser := true; ChatView.textContent := js "yo" |};
     {| ChatView.isUser := false; ChatView.textContent := js "fine" |};
     {| ChatView.isUser := false;
        ChatView.textContent :=
          js "Error: PyOllama command failed: spawn python ENOENT" |}].
Proof.
  unfold Examples.two_turns.
  rewrite (@replies_come_in_completion_order Examples.desk (js "llama3.2")
             (js "hi") (js " yo ")
             (SpawnFailed (js "spawn python ENOENT")) (Exited 0 (js "fine ") [])
             eq_refl eq_refl).
  reflexivity.
Defined.

(** ** Quoting, where it works and where it does not *)

Section Quoting.

Import Shell.






End Quoting.




